(** * Traffic flow analysis: lane assignment and deduplicated counting

    A shallow embedding of [traffic_flow.py] (class [TrafficFlowAnalyzer])
    and the properties of its counting engine, lane configuration loader
    and result writer.

    Conventions of the embedding.
    - Python values that can come out of [json.load] are the type [pyval];
      the in-memory lane tuples of [__init__] are the same values (tuples
      and lists index, unpack and serialise alike).  JSON numbers are
      integers here; a [str] is a [string], one character per [ascii].
    - A method is a function from the state to the state and either the
      raised exception or the returned value: the object is mutated in
      place, so the state survives an exception.
    - [print] appends to [stdout]; the two files the class touches,
      [lane_config.json] and [output.csv], are fields of the state, and
      writing them always succeeds.
    - A Python [float] is a binary64 number, a [spec_float] of the
      Standard Library; [int / float] converts the integer and divides as
      IEEE 754 does, rounding to nearest, ties to even.  The edges of a
      track box reach the class as floats and only go through [int()]:
      they are kept as the rationals they denote.
    - [time.gmtime] and [time.strftime] are those of CPython on 64-bit
      Linux: [gmtime] takes the time rounded down to whole seconds and
      raises outside the years whose offset from 1900 is a C [int];
      [strftime] raises when the year itself is not a C [int].
    - YOLO, DeepSort, pandas and yt_dlp are outside the class: what the
      detector and the tracker return enters as input.  The calls of cv2
      are outside too, except that they reject arguments: [cv2.resize] a
      size that is not two positive C [int]s, a drawing call a point that
      is not two C [int]s; a call that accepts its arguments returns.  A
      capture reports its frame size and frame count as integers. *)

From Stdlib Require Import ZArith QArith String Ascii List.
From Stdlib Require SpecFloat.
From stdpp Require Import gmap strings list pretty sorting.

Local Open Scope Z_scope.
Local Set Warnings "-register-all".

(** ** Python values and exceptions *)

Inductive pyval : Type :=
  | PNone
  | PBool (b : bool)
  | PInt (z : Z)
  | PStr (s : string)
  | PList (l : list pyval)
  | PDict (kvs : list (string * pyval)).

(** [Cv2Error] is what a cv2 call raises when it rejects an argument
    ([cv2.error]). *)
Inductive exn : Type :=
  | TypeError
  | ValueError
  | KeyError
  | IndexError
  | ZeroDivisionError
  | OverflowError
  | OSError
  | JSONDecodeError
  | Cv2Error.

(** Fallible pure computations. *)
Definition res (A : Type) : Type := exn + A.

Abbreviation OK := inr.
Abbreviation Err := inl.

Definition rbind {A B} (m : res A) (f : A → res B) : res B :=
  match m with
  | inl e => inl e
  | inr a => f a
  end.

Declare Scope res_scope.
Delimit Scope res_scope with res.
Notation "'let?' x := m 'in' k" := (rbind m (λ x, k))
  (at level 10, x pattern, m at level 100, k at level 200) : res_scope.
Notation "'let?' ' x := m 'in' k" := (rbind m (λ x, k))
  (at level 10, x strict pattern, m at level 100, k at level 200) : res_scope.
Local Open Scope res_scope.

Module Py.

(** [iter(v)]: the items a [for] loop or an unpacking sees. *)
Definition iter (v : pyval) : res (list pyval) :=
  match v with
  | PList l => OK l
  | PStr s => OK ((λ c, PStr (String c EmptyString)) <$> list_ascii_of_string s)
  | PDict kvs => OK ((λ kv, PStr kv.1) <$> kvs)
  | PNone | PBool _ | PInt _ => Err TypeError
  end.

(** [a, b = v] *)
Definition unpack2 (v : pyval) : res (pyval * pyval) :=
  let? items := iter v in
  match items with
  | [a; b] => OK (a, b)
  | _ => Err ValueError
  end.

(** [v[i]] for an integer literal [i] (0 or 1 in the source). *)
Definition index (v : pyval) (i : nat) : res pyval :=
  match v with
  | PList l =>
      match l !! i with
      | Some x => OK x
      | None => Err IndexError
      end
  | PStr s =>
      match list_ascii_of_string s !! i with
      | Some c => OK (PStr (String c EmptyString))
      | None => Err IndexError
      end
  | PDict _ => Err KeyError
  | PNone | PBool _ | PInt _ => Err TypeError
  end.

(** The value under a key of a dictionary, kept as the list of its items
    (keys distinct). *)
Fixpoint assoc (k : string) (kvs : list (string * pyval)) : option pyval :=
  match kvs with
  | [] => None
  | (k', v) :: kvs' => if String.eqb k k' then Some v else assoc k kvs'
  end.

(** [v[k]] for a string literal [k]. *)
Definition getitem (v : pyval) (k : string) : res pyval :=
  match v with
  | PDict kvs =>
      match assoc k kvs with
      | Some x => OK x
      | None => Err KeyError
      end
  | _ => Err TypeError
  end.

(** [k in v] for a string literal [k] and a dictionary [v]; the source
    evaluates it only after [v["lanes"]] has succeeded, which takes a
    dictionary. *)
Definition has_key (v : pyval) (k : string) : res bool :=
  match v with
  | PDict kvs => OK (bool_decide (is_Some (assoc k kvs)))
  | _ => Err TypeError
  end.

(** The integer a value compares as against an [int]: [bool] is a
    subclass of [int]; ordering an [int] against anything else raises. *)
Definition as_int (v : pyval) : res Z :=
  match v with
  | PInt z => OK z
  | PBool b => OK (if b then 1 else 0)
  | _ => Err TypeError
  end.

(** [int(q)] on a float: truncation towards zero. *)
Definition int (q : Q) : Z := Z.quot (Qnum q) (Z.pos (Qden q)).

End Py.

(** ** Floats *)

(** A binary64 number. *)
Definition float : Type := SpecFloat.spec_float.

(** The float nearest to [m * 2 ^ e], or an infinity when that is out of
    range. *)
Definition float_lit (m e : Z) : float :=
  SpecFloat.binary_normalize 53 1024 m e false.

(** [float(n)], as an arithmetic operation converts an [int] operand. *)
Definition float_of_int (n : Z) : res float :=
  match float_lit n 0 with
  | SpecFloat.S754_infinity _ => Err OverflowError
  | x => OK x
  end.

Definition is_zero (x : float) : bool :=
  match x with
  | SpecFloat.S754_zero _ => true
  | _ => false
  end.

(** What [self.fps] holds: the [0] that [__init__] assigns, an [int], or
    the float that the capture reports. *)
Inductive fps_val : Type :=
  | IntZero
  | FloatVal (x : float).

(** [n / d] with [n] an [int]: by the integer 0 it raises at once; for a
    float [d] both operands are converted before the divisor is tested. *)
Definition true_div (n : Z) (d : fps_val) : res float :=
  match d with
  | IntZero => Err ZeroDivisionError
  | FloatVal x =>
      let? a := float_of_int n in
      if is_zero x then Err ZeroDivisionError
      else OK (SpecFloat.SFdiv 53 1024 a x)
  end.

(** The largest integer not above a finite float. *)
Definition float_floor (x : float) : Z :=
  match x with
  | SpecFloat.S754_finite s m e => Z.shiftl (if s then Z.neg m else Z.pos m) e
  | _ => 0
  end.

(** ** C integers *)

Definition INT_MIN : Z := -2147483648.
Definition INT_MAX : Z := 2147483647.

(** The integers a C [int] holds. *)
Definition c_int (z : Z) : bool := (INT_MIN <=? z) && (z <=? INT_MAX).

(** ** The analyzer and the files it touches *)

(** One dictionary appended to [output_data]. *)
Record row : Type := Row {
  VehicleID : string;
  Lane : nat;
  Frame : Z;
  Timestamp : string
}.

(** What [open("lane_config.json")] followed by [json.load] finds. *)
Inductive file : Type :=
  | Unparsable
  | Json (v : pyval).

(** One line written by [print]. *)
Inductive out : Type :=
  | Text (s : string)
  | ErrorLoading (e : exn)
  | ResultsSaved (n : nat)
  | LaneTotal (lane : nat) (c : Z)
  | Total (c : Z)
  | VideoProperties (w h : Z) (f : float) (total_frames : Z)
  | TargetSize (w h : pyval)
  | Progress (frame_count : Z).

Record state : Type := State {
  lanes : pyval;
  target_width : pyval;
  target_height : pyval;
  lane_counts : gmap nat Z;
  counted_ids : gset string;
  output_data : list row;
  frame_width : Z;
  frame_height : Z;
  fps : fps_val;
  lane_config_json : option file;
  output_csv : option (list (list string));
  stdout : list out
}.

Definition set_lanes (v : pyval) (s : state) : state :=
  State v (target_width s) (target_height s) (lane_counts s) (counted_ids s)
        (output_data s) (frame_width s) (frame_height s) (fps s)
        (lane_config_json s) (output_csv s) (stdout s).

Definition set_target (w h : pyval) (s : state) : state :=
  State (lanes s) w h (lane_counts s) (counted_ids s)
        (output_data s) (frame_width s) (frame_height s) (fps s)
        (lane_config_json s) (output_csv s) (stdout s).

Definition set_lane_counts (m : gmap nat Z) (s : state) : state :=
  State (lanes s) (target_width s) (target_height s) m (counted_ids s)
        (output_data s) (frame_width s) (frame_height s) (fps s)
        (lane_config_json s) (output_csv s) (stdout s).

Definition set_counted_ids (c : gset string) (s : state) : state :=
  State (lanes s) (target_width s) (target_height s) (lane_counts s) c
        (output_data s) (frame_width s) (frame_height s) (fps s)
        (lane_config_json s) (output_csv s) (stdout s).

Definition set_output_data (d : list row) (s : state) : state :=
  State (lanes s) (target_width s) (target_height s) (lane_counts s)
        (counted_ids s) d (frame_width s) (frame_height s) (fps s)
        (lane_config_json s) (output_csv s) (stdout s).

Definition set_video (w h : Z) (f : float) (s : state) : state :=
  State (lanes s) (target_width s) (target_height s) (lane_counts s)
        (counted_ids s) (output_data s) w h (FloatVal f)
        (lane_config_json s) (output_csv s) (stdout s).

Definition set_lane_config_json (f : option file) (s : state) : state :=
  State (lanes s) (target_width s) (target_height s) (lane_counts s)
        (counted_ids s) (output_data s) (frame_width s) (frame_height s)
        (fps s) f (output_csv s) (stdout s).

Definition set_output_csv (f : option (list (list string))) (s : state) : state :=
  State (lanes s) (target_width s) (target_height s) (lane_counts s)
        (counted_ids s) (output_data s) (frame_width s) (frame_height s)
        (fps s) (lane_config_json s) f (stdout s).

Definition set_stdout (o : list out) (s : state) : state :=
  State (lanes s) (target_width s) (target_height s) (lane_counts s)
        (counted_ids s) (output_data s) (frame_width s) (frame_height s)
        (fps s) (lane_config_json s) (output_csv s) o.

(** ** Methods: state passing with exceptions *)

Definition M (A : Type) : Type := state → state * res A.

Definition ret {A} (a : A) : M A := λ s, (s, OK a).
Definition raise {A} (e : exn) : M A := λ s, (s, Err e).
Definition lift {A} (r : res A) : M A := λ s, (s, r).
Definition get : M state := λ s, (s, OK s).
Definition modify (f : state → state) : M unit := λ s, (f s, OK tt).

Definition bind {A B} (m : M A) (f : A → M B) : M B :=
  λ s, match m s with
       | (s', inr a) => f a s'
       | (s', inl e) => (s', inl e)
       end.

(** [try: m  except Exception as e: h e] *)
Definition try_except {A} (m : M A) (h : exn → M A) : M A :=
  λ s, match m s with
       | (s', inr a) => (s', inr a)
       | (s', inl e) => h e s'
       end.

Definition print (o : out) : M unit := modify (λ s, set_stdout (stdout s ++ [o]) s).

Declare Scope meth_scope.
Delimit Scope meth_scope with meth.
Notation "'do' x <- m ; k" := (bind m (λ x, k))
  (at level 10, x pattern, m at level 100, k at level 200) : meth_scope.
Notation "m ;; k" := (bind m (λ _, k))
  (at level 100, k at level 200, right associativity) : meth_scope.
Local Open Scope meth_scope.

(** [for x in xs: body x], stopping at the first exception. *)
Fixpoint for_each {A} (xs : list A) (body : A → M unit) : M unit :=
  match xs with
  | [] => ret tt
  | x :: xs' => body x ;; for_each xs' body
  end.

(** ** Lane geometry *)

(** A lane as [__init__] writes it: [[(x1, y1), (x2, y2)]]. *)
Definition lane : Type := (Z * Z) * (Z * Z).

Definition point_val (p : Z * Z) : pyval := PList [PInt p.1; PInt p.2].
Definition lane_val (l : lane) : pyval := PList [point_val l.1; point_val l.2].
Definition lanes_val (ls : list lane) : pyval := PList (lane_val <$> ls).

Definition default_lanes : list lane :=
  [ ((100, 720), (500, 400));
    ((550, 720), (900, 400));
    ((950, 720), (1300, 400)) ].

(** The condition of [is_vehicle_in_lane]:
    [p1[0] <= cx <= p2[0] and p1[1] >= cy >= p2[1]],
    with Python's left-to-right evaluation and short circuits. *)
Definition in_lane (p1 p2 : pyval) (cx cy : Z) : res bool :=
  let? a := Py.index p1 0 in
  let? x1 := Py.as_int a in
  if negb (x1 <=? cx) then OK false else
  let? b := Py.index p2 0 in
  let? x2 := Py.as_int b in
  if negb (cx <=? x2) then OK false else
  let? c := Py.index p1 1 in
  let? y1 := Py.as_int c in
  if negb (y1 >=? cy) then OK false else
  let? d := Py.index p2 1 in
  let? y2 := Py.as_int d in
  OK (cy >=? y2).

(** The loop of [is_vehicle_in_lane] from lane number [lane_num] on. *)
Fixpoint lane_loop (items : list pyval) (lane_num : nat) (cx cy : Z)
  : res (option nat) :=
  match items with
  | [] => OK None
  | item :: rest =>
      let? '(p1, p2) := Py.unpack2 item in
      let? hit := in_lane p1 p2 cx cy in
      if hit then OK (Some lane_num) else lane_loop rest (S lane_num) cx cy
  end.

(** [is_vehicle_in_lane(cx, cy)] on [self.lanes = lanes_v]. *)
Definition is_vehicle_in_lane (lanes_v : pyval) (cx cy : Z) : res (option nat) :=
  let? items := Py.iter lanes_v in
  lane_loop items 1 cx cy.


(** ** The time library *)

(** The fields of [struct_time] that the class reads or that decide
    whether a call raises. *)
Record struct_time : Type := StructTime {
  tm_year : Z;
  tm_hour : Z;
  tm_min : Z;
  tm_sec : Z
}.

(** The year of the day that lies [days] days after 1 January 1970, in
    the Gregorian calendar. *)
Definition year_of_days (days : Z) : Z :=
  let z := days + 719468 in
  let era := z / 146097 in
  let doe := z - era * 146097 in
  let yoe := (doe - doe / 1460 + doe / 36524 - doe / 146096) / 365 in
  let doy := doe - (365 * yoe + yoe / 4 - yoe / 100) in
  let mp := (5 * doy + 2) / 153 in
  let month := if mp <? 10 then mp + 3 else mp - 9 in
  if month <=? 2 then yoe + era * 400 + 1 else yoe + era * 400.

(** The time of second [secs] after the epoch. *)
Definition broken_down (secs : Z) : struct_time :=
  let day := secs mod 86400 in
  StructTime (year_of_days (secs / 86400))
             (day / 3600) (day mod 3600 / 60) (day mod 60).

(** [time.gmtime(t)]: a NaN is refused, the float is rounded down to
    whole seconds, which have to fit the platform's [time_t], and the C
    library refuses a year whose offset from 1900 is not an [int]. *)
Definition gmtime (t : float) : res struct_time :=
  match t with
  | SpecFloat.S754_nan => Err ValueError
  | SpecFloat.S754_infinity _ => Err OverflowError
  | _ =>
      let secs := float_floor t in
      if 2 ^ 63 <? Z.abs secs then Err OverflowError
      else if c_int (tm_year (broken_down secs) - 1900)
      then OK (broken_down secs)
      else Err OSError
  end.

Definition two_digits (n : Z) : string :=
  if n <? 10 then String "0" (pretty n) else pretty n.

(** [time.strftime("%H:%M:%S", tm)]: the fields of [tm] are read as C
    [int]s, the year as it is. *)
Definition strftime (tm : struct_time) : res string :=
  if c_int (tm_year tm)
  then OK (two_digits (tm_hour tm) +:+ ":" +:+ two_digits (tm_min tm) +:+ ":" +:+
           two_digits (tm_sec tm))
  else Err OverflowError.

(** ** Timestamps *)

(** [time.strftime("%H:%M:%S", time.gmtime(frame_number / fps))] *)
Definition timestamp_of (frame_number : Z) (fps_v : fps_val) : res string :=
  let? secs := true_div frame_number fps_v in
  let? tm := gmtime secs in
  strftime tm.

(** ** The calls of cv2 *)

(** [cv2.resize(frame, (w, h))] on a decoded frame. *)
Definition cv2_resize (w h : pyval) : res unit :=
  match w, h with
  | PInt a, PInt b =>
      if (0 <? a) && (a <=? INT_MAX) && (0 <? b) && (b <=? INT_MAX)
      then OK tt else Err Cv2Error
  | _, _ => Err Cv2Error
  end.

(** A coordinate of a point handed to a drawing call: an [int] that fits
    a C [int]; [None] leaves the coordinate at 0. *)
Definition cv2_coord (v : pyval) : bool :=
  match v with
  | PNone => true
  | PInt z => c_int z
  | _ => false
  end.

(** A point handed to a drawing call: a sequence of two coordinates;
    [None] leaves the point at the origin. *)
Definition cv2_point (p : pyval) : res unit :=
  match p with
  | PNone => OK tt
  | PList [x; y] => if cv2_coord x && cv2_coord y then OK tt else Err Cv2Error
  | _ => Err Cv2Error
  end.

(** ** Frame processing *)

Definition box : Type := Q * Q * Q * Q.

(** A track as the tracker returns it. *)
Record track : Type := Track {
  is_confirmed : bool;
  track_id : string;
  to_ltrb : box
}.

(** [x1, y1, x2, y2 = map(int, ltrb)] *)
Definition corners (t : track) : Z * Z * Z * Z :=
  let '(l, u, r, b) := to_ltrb t in
  (Py.int l, Py.int u, Py.int r, Py.int b).

(** [x1, y1, x2, y2 = map(int, ltrb)] and the two floor divisions. *)
Definition centroid (t : track) : Z * Z :=
  let '(l, u, r, b) := to_ltrb t in
  let x1 := Py.int l in
  let y1 := Py.int u in
  let x2 := Py.int r in
  let y2 := Py.int b in
  ((x1 + x2) / 2, (y1 + y2) / 2).

(** The box and the label of a track: [cv2.rectangle] with the corners
    [(x1, y1)] and [(x2, y2)], then [cv2.putText] at [(x1, y1 - 5)]. *)
Definition draw_box (t : track) : res unit :=
  let '(x1, y1, x2, y2) := corners t in
  if c_int x1 && c_int y1 && c_int x2 && c_int y2 && c_int (y1 - 5)
  then OK tt else Err Cv2Error.

(** [self.lane_counts[lane_num] += 1] *)
Definition incr_lane_count (lane_num : nat) : M unit :=
  do s <- get;
  match lane_counts s !! lane_num with
  | Some c => modify (set_lane_counts (<[lane_num := c + 1]> (lane_counts s)))
  | None => raise KeyError
  end.

(** The counting of a confirmed track whose centroid is [(cx, cy)]: the
    [if lane_num and track_id not in self.counted_ids] block. *)
Definition count_track (frame_number : Z) (t : track) (cx cy : Z) : M unit :=
  do s <- get;
  do lane_num <- lift (is_vehicle_in_lane (lanes s) cx cy);
  match lane_num with
  | Some (S _ as n) =>
      if decide (track_id t ∈ counted_ids s) then ret tt else
      incr_lane_count n;;
      modify (λ s, set_counted_ids ({[track_id t]} ∪ counted_ids s) s);;
      do s <- get;
      do timestamp <- lift (timestamp_of frame_number (fps s));
      modify (λ s, set_output_data
                     (output_data s ++ [Row (track_id t) n frame_number timestamp]) s)
  | _ => ret tt
  end.

(** The body of the [for track in tracks] loop of [process_frame]. *)
Definition process_track (frame_number : Z) (t : track) : M unit :=
  if negb (is_confirmed t) then ret tt else
  let '(cx, cy) := centroid t in
  count_track frame_number t cx cy;;
  lift (draw_box t).

(** [n / v] with [n] an [int] and [v] an attribute read from the
    configuration: what the division raises.  The quotient of two
    integers is rounded once; it is too large for a float from
    [2 ^ 1024 - 2 ^ 970] on. *)
Definition scale_factor (n : Z) (v : pyval) : res unit :=
  let? d := Py.as_int v in
  if d =? 0 then Err ZeroDivisionError
  else if (2 ^ 1024 - 2 ^ 970) * Z.abs d <=? Z.abs n then Err OverflowError
  else OK tt.

(** The scaling of one detection back to the original frame size: the
    two scale factors are computed, [scale_x] first; their products with
    the detector's coordinates are tensors that only the tracker reads. *)
Definition scale_detection (s : state) : res unit :=
  let? _ := scale_factor (frame_width s) (target_width s) in
  scale_factor (frame_height s) (target_height s).

(** [self.lane_counts[lane_num]] *)
Definition read_count (counts : gmap nat Z) (lane_num : nat) : res Z :=
  match counts !! lane_num with
  | Some c => OK c
  | None => Err KeyError
  end.

(** The loop of [draw_lanes_and_counts] from lane number [lane_num] on:
    the rectangle of the lane between [p1] and [p2], the count read for
    the label, and the label drawn at [(p1[0], p1[1] - 10)]. *)
Fixpoint draw_loop (counts : gmap nat Z) (items : list pyval) (lane_num : nat)
  : res unit :=
  match items with
  | [] => OK tt
  | item :: rest =>
      let? '(p1, p2) := Py.unpack2 item in
      let? _ := cv2_point p1 in
      let? _ := cv2_point p2 in
      let? _ := read_count counts lane_num in
      let? x := Py.index p1 0 in
      let? y := Py.index p1 1 in
      let? y := Py.as_int y in
      let? _ := cv2_point (PList [x; PInt (y - 10)]) in
      draw_loop counts rest (S lane_num)
  end.

(** The lane labels, then the totals line, which reads the counters 1,
    2 and 3. *)
Definition draw_lanes_and_counts : M unit :=
  do s <- get;
  lift (let? items := Py.iter (lanes s) in
        let? _ := draw_loop (lane_counts s) items 1 in
        let? _ := read_count (lane_counts s) 1 in
        let? _ := read_count (lane_counts s) 2 in
        let? _ := read_count (lane_counts s) 3 in
        OK tt).

(** One decoded frame: the vehicle boxes the detector finds in it and the
    tracks the tracker answers with. *)
Record frame : Type := VideoFrame {
  boxes : list box;
  tracks : list track
}.

(** The detection loop of [process_frame]: every vehicle box is scaled
    and handed to the tracker. *)
Definition scale_detections (f : frame) : M unit :=
  for_each (boxes f)
    (λ _, do s <- get; lift (scale_detection s)).

(** The frame up to the tracker: the resize to the reference size, the
    detector, the detection loop. *)
Definition detect (f : frame) : M unit :=
  do s <- get;
  lift (cv2_resize (target_width s) (target_height s));;
  scale_detections f.

Definition process_frame (f : frame) (frame_number : Z) : M unit :=
  detect f;;
  for_each (tracks f) (process_track frame_number);;
  draw_lanes_and_counts.

(** ** Lane configuration file *)

Definition description : string := "Lane coordinates for traffic flow analysis".

(** The dictionary [save_lane_config] dumps. *)
Definition config_of (s : state) : pyval :=
  PDict [ ("lanes", lanes s);
          ("description", PStr description);
          ("target_frame_size", PList [target_width s; target_height s]) ].

Definition save_lane_config : M unit :=
  do s <- get;
  modify (set_lane_config_json (Some (Json (config_of s))));;
  print (Text "Lane configuration saved to lane_config.json").

Definition json_load (f : file) : res pyval :=
  match f with
  | Unparsable => Err JSONDecodeError
  | Json v => OK v
  end.

(** The body of the [try] block of [load_lane_config]. *)
Definition load_body (f : file) : M unit :=
  do config <- lift (json_load f);
  do lanes_v <- lift (Py.getitem config "lanes");
  modify (set_lanes lanes_v);;
  do has_size <- lift (Py.has_key config "target_frame_size");
  (if has_size : bool then
     do size <- lift (Py.getitem config "target_frame_size");
     do wh <- lift (Py.unpack2 size);
     modify (set_target wh.1 wh.2)
   else ret tt);;
  print (Text "Lane configuration loaded from lane_config.json").

Definition load_lane_config : M unit :=
  do s <- get;
  match lane_config_json s with
  | Some f =>
      try_except (load_body f)
        (λ e, print (ErrorLoading e);;
              print (Text "Using default lane configuration"))
  | None =>
      print (Text "No lane_config.json found. Using default configuration.");;
      save_lane_config
  end.

(** ** Construction *)

Definition initial_counts : gmap nat Z := {[ 1%nat := 0; 2%nat := 0; 3%nat := 0 ]}.

(** The attribute assignments of [__init__]; the files and the console
    are the environment's. *)
Definition init_attributes (s : state) : state :=
  State (lanes_val default_lanes) (PInt 960) (PInt 540) initial_counts ∅ []
        0 0 IntZero (lane_config_json s) (output_csv s) (stdout s).

Definition __init__ : M unit :=
  print (Text "Loading YOLO model...");;
  modify init_attributes;;
  load_lane_config.

(** The environment before an analyzer exists: [cfg] is the content of
    [lane_config.json], if the file is there. *)
Definition boot (cfg : option file) : state :=
  State PNone PNone PNone ∅ ∅ [] 0 0 IntZero cfg None [].

(** [TrafficFlowAnalyzer(url)] in that environment. *)
Definition new_analyzer (cfg : option file) : state * res unit :=
  __init__ (boot cfg).

(** ** The video loop *)

(** What [cv2.VideoCapture] reports about the video and the frames it
    yields. *)
Record capture : Type := Capture {
  isOpened : bool;
  cap_width : Z;
  cap_height : Z;
  cap_fps : float;
  cap_frame_count : Z;
  cap_frames : list frame
}.

(** The progress line printed every 30 frames; the elapsed time is
    positive, the reported number of frames may be 0. *)
Definition report_progress (frame_count total_frames : Z) : M unit :=
  if frame_count mod 30 =? 0 then
    if total_frames =? 0 then raise ZeroDivisionError
    else print (Progress frame_count)
  else ret tt.

(** The [while True] loop of [process_video], entered with [frame_count]. *)
Fixpoint frames_loop (frames : list frame) (total_frames frame_count : Z)
  : M unit :=
  match frames with
  | [] => ret tt
  | f :: rest =>
      let frame_count := frame_count + 1 in
      process_frame f frame_count;;
      report_progress frame_count total_frames;;
      frames_loop rest total_frames frame_count
  end.

Definition process_video (cap : capture) : M unit :=
  print (Text "Processing video...");;
  if negb (isOpened cap) then raise ValueError else
  modify (set_video (cap_width cap) (cap_height cap) (cap_fps cap));;
  print (VideoProperties (cap_width cap) (cap_height cap) (cap_fps cap)
                         (cap_frame_count cap));;
  do s <- get;
  print (TargetSize (target_width s) (target_height s));;
  frames_loop (cap_frames cap) (cap_frame_count cap) 0;;
  print (Text "Video processing completed!").

(** ** Results *)

Definition csv_header : list string := ["VehicleID"; "Lane"; "Frame"; "Timestamp"].

Definition csv_fields (r : row) : list string :=
  [VehicleID r; pretty (Lane r); pretty (Frame r); Timestamp r].

(** The lines of [pd.DataFrame(rows).to_csv(index=False)], each as its
    list of fields: a frame built from no rows has no columns. *)
Definition to_csv (rows : list row) : list (list string) :=
  match rows with
  | [] => [[]]
  | _ => csv_header :: (csv_fields <$> rows)
  end.

Definition rule : string := string_of_list_ascii (replicate 50 "="%char).

Definition print_lane_total (lane_num : nat) : M unit :=
  do s <- get;
  do c <- lift (read_count (lane_counts s) lane_num);
  print (LaneTotal lane_num c).

Definition save_results : M unit :=
  do s <- get;
  modify (set_output_csv (Some (to_csv (output_data s))));;
  print (ResultsSaved (length (output_data s)));;
  print (Text (String "010" rule));;
  print (Text "TRAFFIC FLOW ANALYSIS SUMMARY");;
  print (Text rule);;
  print_lane_total 1;;
  print_lane_total 2;;
  print_lane_total 3;;
  print (Total (map_fold (λ _ c acc, c + acc) 0 (lane_counts s)));;
  print (Text rule);;
  save_lane_config.

(** ** The whole analysis *)

(** What [run_analysis] meets outside the analyzer: the address and the
    output path given to the constructor, the text [str(e)] of an
    exception, whether [traffic_video.mp4] is already there, what the
    download raises if anything, and the video that is then opened. *)
Record surroundings : Type := Surroundings {
  video_url : string;
  output_video_path : string;
  exn_text : exn → string;
  video_exists : bool;
  ydl_download : res unit;
  opened_video : capture
}.

Definition download_video (w : surroundings) : M unit :=
  if video_exists w then
    print (Text "Video file traffic_video.mp4 already exists. Skipping download.")
  else
    print (Text ("Downloading video from " +:+ video_url w +:+ "..."));;
    try_except
      (lift (ydl_download w);;
       print (Text "Video download completed successfully!"))
      (λ e, print (Text ("Error downloading video: " +:+ exn_text w e));;
            raise e).

Definition run_analysis (w : surroundings) : M unit :=
  try_except
    (download_video w;;
     process_video (opened_video w);;
     save_results;;
     print (Text (String "010" ("Demo video saved as: " +:+ output_video_path w)));;
     print (Text "Analysis completed successfully!"))
    (λ e, print (Text ("Error during analysis: " +:+ exn_text w e));;
          raise e).

(** * Statements

    What the properties below are stated with: outcomes, orders on
    states, the sentences of the specification that the program does not
    satisfy as they are written, and the concrete sessions used as
    examples. *)

(** ** Counting the credits of one identity *)

(** How many iterations of the track loop, run from [s], observe the
    identity [id] and change [lane_counts]. *)
Fixpoint credits_tracks (id : string) (frame_number : Z) (ts : list track)
  (s : state) : nat :=
  match ts with
  | [] => 0
  | t :: ts' =>
      let '(s', r) := process_track frame_number t s in
      ((if decide (track_id t = id ∧ lane_counts s' ≠ lane_counts s)
        then 1 else 0) +
       match r with
       | inr _ => credits_tracks id frame_number ts' s'
       | inl _ => 0
       end)%nat
  end.

(** The same over the frames of the video loop. *)
Fixpoint credits_frames (id : string) (frames : list frame)
  (total_frames frame_count : Z) (s : state) : nat :=
  match frames with
  | [] => 0
  | f :: rest =>
      let frame_count := frame_count + 1 in
      match detect f s with
      | (s1, inr _) =>
          (credits_tracks id frame_count (tracks f) s1 +
           match (process_frame f frame_count;;
                  report_progress frame_count total_frames) s with
           | (s', inr _) => credits_frames id rest total_frames frame_count s'
           | (_, inl _) => 0
           end)%nat
      | (_, inl _) => 0%nat
      end
  end.

(** The state after the first counting of [t] in lane [n] up to the
    timestamp: the counter and the set have moved. *)
Definition counted (t : track) (n : nat) (c : Z) (s : state) : state :=
  set_counted_ids ({[track_id t]} ∪ counted_ids s)
    (set_lane_counts (<[n := c + 1]> (lane_counts s)) s).

(** The state after one iteration: either untouched, or the identity was
    new, its lane has a counter, and the counter and the set moved; the
    log moved too unless the timestamp raised. *)
Inductive track_outcome (frame_number : Z) (t : track) (s : state)
  : state → Prop :=
  | outcome_same : track_outcome frame_number t s s
  | outcome_no_event n c e :
      track_id t ∉ counted_ids s →
      lane_counts s !! S n = Some c →
      timestamp_of frame_number (fps s) = Err e →
      track_outcome frame_number t s (counted t (S n) c s)
  | outcome_event n c ts :
      track_id t ∉ counted_ids s →
      lane_counts s !! S n = Some c →
      timestamp_of frame_number (fps s) = OK ts →
      track_outcome frame_number t s
        (set_output_data
           (output_data s ++ [Row (track_id t) (S n) frame_number ts])
           (counted t (S n) c s)).

(** [counted_ids] only grows. *)
Definition counted_le (s s' : state) : Prop := counted_ids s ⊆ counted_ids s'.

(** The containment condition on a well-formed lane, as a proposition. *)
Definition inside (l : lane) (cx cy : Z) : Prop :=
  l.1.1 ≤ cx ∧ cx ≤ l.2.1 ∧ l.1.2 >= cy ∧ cy >= l.2.2.

Global Instance inside_dec l cx cy : Decision (inside l cx cy).
Proof. unfold inside. apply _. Defined.

(** The test one iteration of [is_vehicle_in_lane] makes on an item of
    [self.lanes]: unpack it, then evaluate the condition. *)
Definition lane_test (item : pyval) (cx cy : Z) : res bool :=
  let? '(p1, p2) := Py.unpack2 item in
  in_lane p1 p2 cx cy.

(** A 100 by 100 box centred on a point. *)
Definition box_around (cx cy : Z) : box :=
  (inject_Z (cx - 50), inject_Z (cy - 50), inject_Z (cx + 50), inject_Z (cy + 50)).

(** What the first counting of [t] in lane [n] at [frame_number] does to
    the state [s]. *)
Definition first_counting_transition (s : state) (frame_number : Z)
  (t : track) (n : nat) : Prop :=
  let s' := (process_track frame_number t s).1 in
  (∃ c, lane_counts s !! n = Some c ∧
        lane_counts s' = <[n := c + 1]> (lane_counts s)) ∧
  counted_ids s' = {[track_id t]} ∪ counted_ids s ∧
  ∃ ts, output_data s' = output_data s ++ [Row (track_id t) n frame_number ts].

(** The claim in the spec's words: every confirmed, in-lane, not yet
    counted observation makes that transition. *)
Definition first_counting_as_stated : Prop :=
  ∀ s frame_number t n,
    is_confirmed t = true →
    is_vehicle_in_lane (lanes s) (centroid t).1 (centroid t).2 = OK (Some n) →
    track_id t ∉ counted_ids s →
    first_counting_transition s frame_number t n.

(** The three frames of the spec's end-to-end scenario, on a 1280 by 720
    video at 30 frames per second and no configuration file. *)
Module Scenario.

Definition detection : box :=
  (inject_Z 200, inject_Z 300, inject_Z 260, inject_Z 400).

Definition frame1 : frame :=
  VideoFrame [detection] [Track true "A" (box_around 300 500)].
Definition frame2 : frame :=
  VideoFrame [detection] [Track true "A" (box_around 700 500)].
Definition frame3 : frame :=
  VideoFrame [detection] [Track false "B" (box_around 300 500)].

(** 30.0 *)
Definition rate : float := float_lit 30 0.

Definition video : capture :=
  Capture true 1280 720 rate 3 [frame1; frame2; frame3].

Definition start : state := (new_analyzer None).1.

Definition final : state * res unit := process_video video start.

(** The session when the video ends after its first [k] frames. *)
Definition after (k : nat) : state :=
  (process_video (Capture true 1280 720 rate 3 (take k (cap_frames video)))
                 start).1.

End Scenario.

(** A configuration file with a fourth lane. *)
Module FourLanes.

Definition four_lanes : list lane :=
  default_lanes ++ [((1350, 720), (1700, 400))].

Definition config : file :=
  Json (PDict [ ("lanes", lanes_val four_lanes);
                ("target_frame_size", PList [PInt 960; PInt 540]) ]).

(** The analyzer built on it, with a 1920 by 1080 video opened. *)
Definition session : state :=
  (process_video (Capture true 1920 1080 Scenario.rate 0 [])
                 (new_analyzer (Some config)).1).1.

Definition vehicle : track := Track true "A" (box_around 1500 500).

End FourLanes.

(** The claim in the spec's words: after construction every configured
    lane number [1..N] has a counter, and it is 0. *)
Definition counter_per_lane_as_stated : Prop :=
  ∀ cfg items n,
    let s := (new_analyzer cfg).1 in
    Py.iter (lanes s) = OK items →
    (1 ≤ n ≤ length items)%nat →
    lane_counts s !! n = Some 0.

(** The attributes the session is left with when the load gives up
    before it has assigned anything. *)
Definition has_defaults (s : state) : Prop :=
  lanes s = lanes_val default_lanes ∧
  target_width s = PInt 960 ∧
  target_height s = PInt 540.

(** A file whose lanes are readable and whose frame size is not. *)
Module PartialConfig.

Definition file_lanes : list lane :=
  [ ((0, 10), (10, 0)); ((20, 10), (30, 0)) ].

Definition config : file :=
  Json (PDict [ ("lanes", lanes_val file_lanes);
                ("target_frame_size", PList [PInt 1280; PInt 720; PInt 3]) ]).

End PartialConfig.

(** The claim in the spec's words: a session whose reference size has a
    zero dimension fails at construction. *)
Definition zero_size_fails_fast_as_stated : Prop :=
  ∀ cfg,
    let r := new_analyzer cfg in
    Py.as_int (target_width r.1) = OK 0 ∨ Py.as_int (target_height r.1) = OK 0 →
    ∃ e, r.2 = Err e.

Module ZeroSize.

Definition config : file :=
  Json (PDict [ ("lanes", lanes_val default_lanes);
                ("target_frame_size", PList [PInt 0; PInt 540]) ]).

End ZeroSize.

(** The claim in the spec's words, in a form that does not depend on how
    a timestamp is written down: a timestamp equal to [frame / fps]
    determines that quotient, so two frames with the same timestamp have
    the same quotient. *)
Definition timestamp_is_quotient_as_stated : Prop :=
  ∀ (fps_v : float) frame1 frame2 ts,
    timestamp_of frame1 (FloatVal fps_v) = OK ts →
    timestamp_of frame2 (FloatVal fps_v) = OK ts →
    true_div frame1 (FloatVal fps_v) = true_div frame2 (FloatVal fps_v).

(** Frame rates at which the rounding of the quotient or the range of
    the time library shows: 24000/1001 as a float, and [2 ^ -70]. *)
Module Rates.

(** 23.976023976023978 *)
Definition ntsc_film : float := float_lit 6748650790265479 (-48).

Definition tiny : float := float_lit 1 (-70).

End Rates.

(** An event whose timestamp is the one computed for its frame number at
    frame rate [f]. *)
Definition stamped (f : fps_val) (ev : row) : Prop :=
  timestamp_of (Frame ev) f = OK (Timestamp ev).

(** The log grew by stamped events and the frame rate stayed. *)
Definition log_extends (s s' : state) : Prop :=
  fps s' = fps s ∧
  ∃ new, output_data s' = output_data s ++ new ∧ Forall (stamped (fps s)) new.

(** ** Sessions *)

(** An analyzer constructed with [cfg] on disk and then run over a
    video. *)
Definition session (cfg : option file) (cap : capture) : state * res unit :=
  process_video cap (new_analyzer cfg).1.

(** The state in which [process_video] enters its loop. *)
Definition video_start (cap : capture) (s : state) : state :=
  let s1 := set_stdout (stdout s ++ [Text "Processing video..."]) s in
  let s2 := set_video (cap_width cap) (cap_height cap) (cap_fps cap) s1 in
  let s3 := set_stdout (stdout s2 ++
              [VideoProperties (cap_width cap) (cap_height cap) (cap_fps cap)
                               (cap_frame_count cap)]) s2 in
  set_stdout (stdout s3 ++ [TargetSize (target_width s3) (target_height s3)]) s3.

(** The relation of a state to a later one that keeps a property. *)
Definition keeps (P : state → Prop) : relation state := λ s s', P s → P s'.

(** Every vehicle of the log is there once and is counted. *)
Definition log_once (s : state) : Prop :=
  NoDup (VehicleID <$> output_data s) ∧
  ∀ ev, ev ∈ output_data s → VehicleID ev ∈ counted_ids s.

(** The counted vehicles are those of the log. *)
Definition log_complete (s : state) : Prop :=
  ∀ id, id ∈ counted_ids s ↔ id ∈ VehicleID <$> output_data s.

(** The counters of a later state: the same keys, no smaller counts. *)
Definition counters_le (s s' : state) : Prop :=
  dom (lane_counts s') = dom (lane_counts s) ∧
  ∀ n c, lane_counts s !! n = Some c →
         ∃ c', lane_counts s' !! n = Some c' ∧ c ≤ c'.

(** The configuration, in memory and on disk, and the results file. *)
Definition same_configuration (s s' : state) : Prop :=
  lanes s' = lanes s ∧
  target_width s' = target_width s ∧
  target_height s' = target_height s ∧
  lane_config_json s' = lane_config_json s ∧
  output_csv s' = output_csv s.

(** The number of events of a log in lane [n]. *)
Definition lane_events (n : nat) (log : list row) : Z :=
  Z.of_nat (length (filter (λ ev, Lane ev = n) log)).

(** No counter is below the number of events logged in its lane. *)
Definition counts_cover_log (s : state) : Prop :=
  ∀ n c, lane_counts s !! n = Some c → lane_events n (output_data s) ≤ c.

(** Every counter is the number of events logged in its lane. *)
Definition counts_match_log (s : state) : Prop :=
  ∀ n c, lane_counts s !! n = Some c → c = lane_events n (output_data s).

(** Every lane of the log has a counter. *)
Definition logged_lanes_counted (s : state) : Prop :=
  ∀ ev, ev ∈ output_data s → is_Some (lane_counts s !! Lane ev).

(** A track that the loop counts if its identity is new: confirmed, with
    a lane for its centroid. *)
Definition countable (lanes_v : pyval) (t : track) : Prop :=
  is_confirmed t = true ∧
  ∃ n, is_vehicle_in_lane lanes_v (centroid t).1 (centroid t).2 = OK (Some n).

(** * Properties *)

(** ** The monad *)

Lemma for_each_cons {A} (x : A) xs body s :
  for_each (x :: xs) body s =
  match body x s with
  | (s', inr _) => for_each xs body s'
  | (s', inl e) => (s', inl e)
  end.
Proof. reflexivity. Qed.

(** A loop whose body leaves the state alone leaves the state alone. *)
Lemma for_each_pure {A} (xs : list A) body s :
  (∀ x s0, (body x s0).1 = s0) → (for_each xs body s).1 = s.
Proof.
  intros Hbody. revert s. induction xs as [|x xs IH]; intros s; [done|].
  rewrite for_each_cons. specialize (Hbody x s).
  destruct (body x s) as [s' [e|[]]]; simpl in *; subst s'; [done|]. apply IH.
Qed.

Lemma scale_detections_state f s : (scale_detections f s).1 = s.
Proof. apply for_each_pure. intros b s0. reflexivity. Qed.

Lemma detect_state f s : (detect f s).1 = s.
Proof.
  unfold detect, bind, get, lift.
  destruct (cv2_resize (target_width s) (target_height s)) as [e|[]]; [done|].
  apply scale_detections_state.
Qed.

Lemma detect_result f s : ∃ r, detect f s = (s, r).
Proof.
  pose proof (detect_state f s) as H.
  destruct (detect f s) as [s' r]. simpl in H. subst. eauto.
Qed.

Lemma draw_lanes_and_counts_state s : (draw_lanes_and_counts s).1 = s.
Proof. reflexivity. Qed.

(** A frame is given up before the tracker with the state untouched, or
    it runs its track loop and then draws. *)
Lemma process_frame_unfold f frame_number s :
  (∃ e, detect f s = (s, Err e) ∧
        process_frame f frame_number s = (s, Err e)) ∨
  (detect f s = (s, OK tt) ∧
   process_frame f frame_number s =
     match for_each (tracks f) (process_track frame_number) s with
     | (s', inr _) => (s', (draw_lanes_and_counts s').2)
     | (s', inl e) => (s', Err e)
     end).
Proof.
  destruct (detect_result f s) as [[e|[]] Hs].
  - left. exists e. split; [done|]. unfold process_frame, bind. by rewrite Hs.
  - right. split; [done|]. unfold process_frame, bind. rewrite Hs.
    destruct (for_each (tracks f) (process_track frame_number) s)
      as [s' [e|[]]]; [done|].
    pose proof (draw_lanes_and_counts_state s') as Hd.
    destruct (draw_lanes_and_counts s') as [s'' r]. simpl in *. by subst.
Qed.

(** ** The track loop, case by case *)

Section count_track.
Context (frame_number : Z) (t : track) (cx cy : Z) (s : state).

Lemma count_track_lane_error e :
  is_vehicle_in_lane (lanes s) cx cy = Err e →
  count_track frame_number t cx cy s = (s, Err e).
Proof. intros He. unfold count_track, bind, get, lift. by rewrite He. Qed.

Lemma count_track_no_lane :
  (is_vehicle_in_lane (lanes s) cx cy = OK None ∨
   is_vehicle_in_lane (lanes s) cx cy = OK (Some 0%nat)) →
  count_track frame_number t cx cy s = (s, OK tt).
Proof.
  intros He. unfold count_track, bind, get, lift. by destruct He as [-> | ->].
Qed.

Lemma count_track_already_counted n :
  is_vehicle_in_lane (lanes s) cx cy = OK (Some n) →
  track_id t ∈ counted_ids s →
  count_track frame_number t cx cy s = (s, OK tt).
Proof.
  intros He Hin. unfold count_track, bind, get, lift. rewrite He.
  destruct n; [done|]. by rewrite decide_True.
Qed.

Lemma count_track_no_counter n :
  is_vehicle_in_lane (lanes s) cx cy = OK (Some (S n)) →
  track_id t ∉ counted_ids s →
  lane_counts s !! S n = None →
  count_track frame_number t cx cy s = (s, Err KeyError).
Proof.
  intros He Hin Hk. unfold count_track, bind, get, lift. rewrite He.
  rewrite decide_False by done. unfold incr_lane_count, bind, get.
  by rewrite Hk.
Qed.

Lemma count_track_no_stamp n c e :
  is_vehicle_in_lane (lanes s) cx cy = OK (Some (S n)) →
  track_id t ∉ counted_ids s →
  lane_counts s !! S n = Some c →
  timestamp_of frame_number (fps s) = Err e →
  count_track frame_number t cx cy s = (counted t (S n) c s, Err e).
Proof.
  intros He Hin Hk Hts. unfold count_track, bind, get, lift. rewrite He.
  rewrite decide_False by done. unfold incr_lane_count, bind, get.
  rewrite Hk. cbn. by rewrite Hts.
Qed.

Lemma count_track_counts n c ts :
  is_vehicle_in_lane (lanes s) cx cy = OK (Some (S n)) →
  track_id t ∉ counted_ids s →
  lane_counts s !! S n = Some c →
  timestamp_of frame_number (fps s) = OK ts →
  count_track frame_number t cx cy s =
    (set_output_data
       (output_data s ++ [Row (track_id t) (S n) frame_number ts])
       (counted t (S n) c s),
     OK tt).
Proof.
  intros He Hin Hk Hts. unfold count_track, bind, get, lift. rewrite He.
  rewrite decide_False by done. unfold incr_lane_count, bind, get.
  rewrite Hk. cbn. by rewrite Hts.
Qed.

End count_track.

Section process_track.
Context (frame_number : Z) (t : track) (s : state).

Lemma process_track_unconfirmed :
  is_confirmed t = false → process_track frame_number t s = (s, OK tt).
Proof. intros H. unfold process_track. by rewrite H. Qed.

(** A confirmed track is counted, then drawn. *)
Lemma process_track_confirmed :
  is_confirmed t = true →
  process_track frame_number t s =
    match count_track frame_number t (centroid t).1 (centroid t).2 s with
    | (s', inr _) => (s', draw_box t)
    | (s', inl e) => (s', Err e)
    end.
Proof.
  intros H. unfold process_track. rewrite H. cbn [negb].
  destruct (centroid t) as [cx cy]. cbn [fst snd]. unfold bind, lift.
  by destruct (count_track frame_number t cx cy s) as [s' [e|[]]].
Qed.

Lemma process_track_lane_error e :
  is_confirmed t = true →
  is_vehicle_in_lane (lanes s) (centroid t).1 (centroid t).2 = Err e →
  process_track frame_number t s = (s, Err e).
Proof.
  intros Hc He. rewrite process_track_confirmed by done.
  by rewrite (count_track_lane_error _ _ _ _ _ e).
Qed.

Lemma process_track_no_lane :
  is_confirmed t = true →
  (is_vehicle_in_lane (lanes s) (centroid t).1 (centroid t).2 = OK None ∨
   is_vehicle_in_lane (lanes s) (centroid t).1 (centroid t).2 = OK (Some 0%nat)) →
  process_track frame_number t s = (s, draw_box t).
Proof.
  intros Hc He. rewrite process_track_confirmed by done.
  by rewrite count_track_no_lane.
Qed.

Lemma process_track_already_counted n :
  is_confirmed t = true →
  is_vehicle_in_lane (lanes s) (centroid t).1 (centroid t).2 = OK (Some n) →
  track_id t ∈ counted_ids s →
  process_track frame_number t s = (s, draw_box t).
Proof.
  intros Hc He Hin. rewrite process_track_confirmed by done.
  by rewrite (count_track_already_counted _ _ _ _ _ n).
Qed.

Lemma process_track_no_counter n :
  is_confirmed t = true →
  is_vehicle_in_lane (lanes s) (centroid t).1 (centroid t).2 = OK (Some (S n)) →
  track_id t ∉ counted_ids s →
  lane_counts s !! S n = None →
  process_track frame_number t s = (s, Err KeyError).
Proof.
  intros Hc He Hin Hk. rewrite process_track_confirmed by done.
  by rewrite (count_track_no_counter _ _ _ _ _ n).
Qed.

(** The timestamp raises after the counter and the set have moved. *)
Lemma process_track_no_stamp n c e :
  is_confirmed t = true →
  is_vehicle_in_lane (lanes s) (centroid t).1 (centroid t).2 = OK (Some (S n)) →
  track_id t ∉ counted_ids s →
  lane_counts s !! S n = Some c →
  timestamp_of frame_number (fps s) = Err e →
  process_track frame_number t s = (counted t (S n) c s, Err e).
Proof.
  intros Hc He Hin Hk Hts. rewrite process_track_confirmed by done.
  by rewrite (count_track_no_stamp _ _ _ _ _ n c e).
Qed.

Lemma process_track_counts n c ts :
  is_confirmed t = true →
  is_vehicle_in_lane (lanes s) (centroid t).1 (centroid t).2 = OK (Some (S n)) →
  track_id t ∉ counted_ids s →
  lane_counts s !! S n = Some c →
  timestamp_of frame_number (fps s) = OK ts →
  process_track frame_number t s =
    (set_output_data
       (output_data s ++ [Row (track_id t) (S n) frame_number ts])
       (counted t (S n) c s),
     draw_box t).
Proof.
  intros Hc He Hin Hk Hts. rewrite process_track_confirmed by done.
  by rewrite (count_track_counts _ _ _ _ _ n c ts).
Qed.

End process_track.

Lemma process_track_outcome frame_number t s :
  track_outcome frame_number t s (process_track frame_number t s).1.
Proof.
  destruct (is_confirmed t) eqn:Hc;
    [|rewrite process_track_unconfirmed by done; constructor].
  destruct (is_vehicle_in_lane (lanes s) (centroid t).1 (centroid t).2)
    as [e|[[|n]|]] eqn:He.
  - erewrite process_track_lane_error by done. constructor.
  - rewrite process_track_no_lane by auto. constructor.
  - destruct (decide (track_id t ∈ counted_ids s)) as [Hin|Hin].
    { erewrite process_track_already_counted by done. constructor. }
    destruct (lane_counts s !! S n) as [c|] eqn:Hk.
    + destruct (timestamp_of frame_number (fps s)) as [e|ts] eqn:Hts.
      * erewrite process_track_no_stamp by done. by econstructor.
      * erewrite process_track_counts by done. by constructor.
    + erewrite process_track_no_counter by done. constructor.
  - rewrite process_track_no_lane by auto. constructor.
Qed.

(** An identity already counted freezes the whole state. *)
Lemma process_track_frozen frame_number t s :
  track_id t ∈ counted_ids s → (process_track frame_number t s).1 = s.
Proof.
  intros Hin. by destruct (process_track_outcome frame_number t s).
Qed.

Lemma process_track_counted_mono frame_number t s :
  counted_ids s ⊆ counted_ids (process_track frame_number t s).1.
Proof.
  destruct (process_track_outcome frame_number t s); simpl; set_solver.
Qed.

(** A changed counter means the observed identity is now counted. *)
Lemma process_track_credit frame_number t s :
  lane_counts (process_track frame_number t s).1 ≠ lane_counts s →
  track_id t ∈ counted_ids (process_track frame_number t s).1.
Proof.
  destruct (process_track_outcome frame_number t s); simpl;
    [done | set_solver | set_solver].
Qed.

(** ** Runs *)

(** A preorder on states that every iteration of the track loop respects
    is respected by the track loop, by a frame and by the video loop. *)
Section run_preorder.
Context (R : relation state) `{!PreOrder R}.
Hypothesis track_step : ∀ frame_number t s,
  R s (process_track frame_number t s).1.
Hypothesis print_step : ∀ o s, R s (set_stdout o s).

Lemma tracks_loop_preorder frame_number ts s :
  R s (for_each ts (process_track frame_number) s).1.
Proof.
  revert s. induction ts as [|t ts IH]; intros s; [done|].
  rewrite for_each_cons.
  pose proof (track_step frame_number t s) as Hm.
  destruct (process_track frame_number t s) as [s' [e|[]]]; simpl in *;
    [done|]. etrans; [exact Hm | apply IH].
Qed.

Lemma process_frame_preorder f frame_number s :
  R s (process_frame f frame_number s).1.
Proof.
  unfold process_frame, bind.
  pose proof (detect_state f s) as Hs.
  destruct (detect f s) as [s1 [e|[]]]; simpl in Hs; subst s1;
    [done|].
  pose proof (tracks_loop_preorder frame_number (tracks f) s) as Hm.
  destruct (for_each (tracks f) (process_track frame_number) s)
    as [s2 [e|[]]]; simpl in *; [done|].
  pose proof (draw_lanes_and_counts_state s2) as Hd.
  destruct (draw_lanes_and_counts s2) as [s3 r]; simpl in *. by subst s3.
Qed.

Lemma report_progress_preorder frame_count total_frames s :
  R s (report_progress frame_count total_frames s).1.
Proof.
  unfold report_progress, print, modify, raise, ret.
  repeat case_match; simpl; done.
Qed.

Lemma frame_step_preorder f frame_count total_frames s :
  R s ((process_frame f frame_count;;
        report_progress frame_count total_frames) s).1.
Proof.
  unfold bind.
  pose proof (process_frame_preorder f frame_count s) as Hm.
  destruct (process_frame f frame_count s) as [s' [e|[]]];
    simpl in *; [done|].
  etrans; [exact Hm | apply report_progress_preorder].
Qed.

Lemma frames_loop_preorder frames total_frames frame_count s :
  R s (frames_loop frames total_frames frame_count s).1.
Proof.
  revert frame_count s. induction frames as [|f frames IH];
    intros frame_count s; [done|].
  pose proof (frame_step_preorder f (frame_count + 1) total_frames s) as Hm.
  cbn [frames_loop]. unfold bind in *.
  destruct (process_frame f (frame_count + 1) s) as [s1 [e|[]]];
    simpl in *; [done|].
  destruct (report_progress (frame_count + 1) total_frames s1)
    as [s2 [e|[]]]; simpl in *; [done|].
  etrans; [exact Hm | apply IH].
Qed.

End run_preorder.

Global Instance counted_le_preorder : PreOrder counted_le.
Proof. unfold counted_le. split; [intros s; done | intros s1 s2 s3; set_solver]. Qed.

Lemma tracks_counted_mono frame_number ts s :
  counted_ids s ⊆
  counted_ids (for_each ts (process_track frame_number) s).1.
Proof.
  apply (tracks_loop_preorder counted_le). intros.
  apply process_track_counted_mono.
Qed.

Lemma frame_step_counted_mono f frame_count total_frames s :
  counted_ids s ⊆
  counted_ids ((process_frame f frame_count;;
                report_progress frame_count total_frames) s).1.
Proof.
  apply (frame_step_preorder counted_le); [|by intros; unfold counted_le].
  intros. apply process_track_counted_mono.
Qed.

Lemma frames_loop_counted_mono frames total_frames frame_count s :
  counted_ids s ⊆ counted_ids (frames_loop frames total_frames frame_count s).1.
Proof.
  apply (frames_loop_preorder counted_le); [|by intros; unfold counted_le].
  intros. apply process_track_counted_mono.
Qed.

(** No credit for an identity that is counted already. *)
Lemma credits_tracks_counted id frame_number ts s :
  id ∈ counted_ids s → credits_tracks id frame_number ts s = 0%nat.
Proof.
  revert s. induction ts as [|t ts IH]; intros s Hin; [done|].
  simpl.
  pose proof (process_track_counted_mono frame_number t s) as Hm.
  pose proof (process_track_frozen frame_number t s) as Hf.
  destruct (process_track frame_number t s) as [s' r]; simpl in *.
  rewrite decide_False.
  - destruct r as [e|[]]; [done|]. rewrite IH; [done | set_solver].
  - intros [Heq Hne]. apply Hne. rewrite Hf; [done | by rewrite Heq].
Qed.

(** At most one credit in a track loop, and a credit leaves the identity
    counted. *)
Lemma credits_tracks_bound id frame_number ts s :
  (credits_tracks id frame_number ts s ≤ 1)%nat ∧
  (credits_tracks id frame_number ts s = 1%nat →
   id ∈ counted_ids (for_each ts (process_track frame_number) s).1).
Proof.
  revert s. induction ts as [|t ts IH]; intros s; [simpl; split; [lia|done]|].
  rewrite for_each_cons. cbn [credits_tracks].
  pose proof (process_track_credit frame_number t s) as Hc.
  destruct (process_track frame_number t s) as [s' r] eqn:Hp; simpl in *.
  case_decide as Hd.
  - destruct Hd as [Heq Hne]. specialize (Hc Hne). rewrite Heq in Hc.
    destruct r as [e|[]]; [split; [lia|done]|].
    rewrite (credits_tracks_counted id) by done. split; [lia|].
    intros _. by apply tracks_counted_mono.
  - destruct r as [e|[]]; [split; [lia|done]|]. apply IH.
Qed.

Lemma credits_frames_counted id frames total_frames frame_count s :
  id ∈ counted_ids s →
  credits_frames id frames total_frames frame_count s = 0%nat.
Proof.
  revert frame_count s. induction frames as [|f frames IH];
    intros frame_count s Hin; [done|].
  cbn [credits_frames].
  pose proof (detect_state f s) as Hs.
  destruct (detect f s) as [s1 [e|[]]]; simpl in Hs; subst s1;
    [done|].
  rewrite credits_tracks_counted by done.
  pose proof (frame_step_counted_mono f (frame_count + 1) total_frames s) as Hm.
  destruct ((process_frame f (frame_count + 1);;
             report_progress (frame_count + 1) total_frames) s)
    as [s' [e|[]]]; simpl in *; [done|]. apply IH. set_solver.
Qed.

(** Past the detector, a frame leaves the state its track loop
    leaves. *)
Lemma process_frame_state f frame_number s s1 :
  detect f s = (s1, OK tt) →
  (process_frame f frame_number s).1 =
  (for_each (tracks f) (process_track frame_number) s1).1.
Proof.
  intros Hs. unfold process_frame, bind. rewrite Hs.
  destruct (for_each (tracks f) (process_track frame_number) s1)
    as [s2 [e|[]]]; [done|]. apply draw_lanes_and_counts_state.
Qed.

Lemma report_progress_counted frame_count total_frames s :
  counted_ids (report_progress frame_count total_frames s).1 = counted_ids s.
Proof.
  unfold report_progress, print, modify, raise, ret.
  repeat case_match; simpl; done.
Qed.

Lemma credits_frames_bound id frames total_frames frame_count s :
  (credits_frames id frames total_frames frame_count s ≤ 1)%nat.
Proof.
  revert frame_count s. induction frames as [|f frames IH];
    intros frame_count s; [simpl; lia|].
  cbn [credits_frames].
  destruct (detect f s) as [s1 [e|[]]] eqn:Hs; [lia|].
  pose proof (detect_state f s) as Hs1. rewrite Hs in Hs1.
  simpl in Hs1. subst s1.
  destruct (credits_tracks_bound id (frame_count + 1) (tracks f) s)
    as [Hle Hin].
  pose proof (process_frame_state f (frame_count + 1) s s Hs) as Hst.
  unfold bind.
  destruct (process_frame f (frame_count + 1) s) as [s1 [e|[]]];
    simpl in Hst; [lia|].
  pose proof (report_progress_counted (frame_count + 1) total_frames s1) as Hrp.
  destruct (report_progress (frame_count + 1) total_frames s1)
    as [s' [e|[]]]; simpl in Hrp; [lia|].
  destruct (decide (credits_tracks id (frame_count + 1) (tracks f) s = 1%nat))
    as [H1|H1].
  - rewrite credits_frames_counted; [lia|]. rewrite Hrp, Hst. auto.
  - specialize (IH (frame_count + 1) s'). lia.
Qed.

(** C1. At-most-once counting: over any run of the video loop from any
    state an identity is credited (its observation changes [lane_counts])
    at most once; a credit puts the identity into [counted_ids]; and from
    then on, after any further frames, observing that identity again
    leaves [lane_counts], [counted_ids] and [output_data] as they are,
    whatever lane it is in. *)
Theorem at_most_once_counting (id : string) :
  (∀ frames total_frames frame_count s,
     (credits_frames id frames total_frames frame_count s ≤ 1)%nat) ∧
  (∀ frame_number t s,
     track_id t = id →
     lane_counts (process_track frame_number t s).1 ≠ lane_counts s →
     id ∈ counted_ids (process_track frame_number t s).1) ∧
  (∀ frames total_frames frame_count s frame_number t,
     id ∈ counted_ids s →
     track_id t = id →
     let s' := (frames_loop frames total_frames frame_count s).1 in
     let s'' := (process_track frame_number t s').1 in
     lane_counts s'' = lane_counts s' ∧
     counted_ids s'' = counted_ids s' ∧
     output_data s'' = output_data s').
Proof.
  split; [|split].
  - intros. apply credits_frames_bound.
  - intros frame_number t s <-. apply process_track_credit.
  - intros frames total_frames frame_count s frame_number t Hin <- s' s''.
    subst s''. rewrite process_track_frozen; [done|].
    subst s'. by apply frames_loop_counted_mono.
Qed.

(** ** Lane membership *)

Lemma unpack2_lane_val (l : lane) :
  Py.unpack2 (lane_val l) = OK (point_val l.1, point_val l.2).
Proof. reflexivity. Qed.

Lemma in_lane_points (l : lane) (cx cy : Z) :
  in_lane (point_val l.1) (point_val l.2) cx cy =
  OK (bool_decide (inside l cx cy)).
Proof.
  destruct l as [[x1 y1] [x2 y2]]. unfold in_lane, inside. simpl.
  destruct (Z.leb_spec x1 cx); simpl;
    [|rewrite bool_decide_eq_false_2; [done | lia]].
  destruct (Z.leb_spec cx x2); simpl;
    [|rewrite bool_decide_eq_false_2; [done | lia]].
  destruct (Z.geb_spec y1 cy); simpl;
    [|rewrite bool_decide_eq_false_2; [done | lia]].
  destruct (Z.geb_spec cy y2); simpl.
  - rewrite bool_decide_eq_true_2; [done | lia].
  - rewrite bool_decide_eq_false_2; [done | lia].
Qed.

(** On well-formed lanes the loop is a search for the first lane that
    contains the point. *)
Lemma lane_loop_lanes (ls : list lane) (k : nat) (cx cy : Z) :
  lane_loop (lane_val <$> ls) k cx cy =
  OK ((λ hit, (k + hit.1)%nat) <$> list_find (λ l, inside l cx cy) ls).
Proof.
  revert k. induction ls as [|l ls IH]; intros k; [done|].
  rewrite fmap_cons. cbn [lane_loop]. rewrite unpack2_lane_val.
  cbn [rbind]. rewrite in_lane_points. cbn [rbind list_find].
  destruct (decide (inside l cx cy)) as [Hin|Hin].
  - rewrite bool_decide_eq_true_2 by done. simpl. do 3 f_equal. lia.
  - rewrite bool_decide_eq_false_2 by done. rewrite IH.
    destruct (list_find _ ls) as [[i l']|]; simpl; [|done].
    do 3 f_equal. lia.
Qed.

Lemma is_vehicle_in_lane_lanes (ls : list lane) (cx cy : Z) :
  is_vehicle_in_lane (lanes_val ls) cx cy =
  OK ((λ hit, S hit.1) <$> list_find (λ l, inside l cx cy) ls).
Proof. unfold is_vehicle_in_lane, lanes_val. simpl. apply lane_loop_lanes. Qed.

(** Lane numbers start at the loop's first number. *)
Lemma lane_loop_ge items k cx cy n :
  lane_loop items k cx cy = OK (Some n) → (k ≤ n)%nat.
Proof.
  revert k. induction items as [|item items IH]; intros k; [done|].
  cbn [lane_loop]. destruct (Py.unpack2 item) as [e|[p1 p2]]; [done|].
  cbn [rbind]. destruct (in_lane p1 p2 cx cy) as [e|[|]]; [done| |].
  - cbn [rbind]. intros [= ->]. lia.
  - cbn [rbind]. intros H. apply IH in H. lia.
Qed.

Lemma is_vehicle_in_lane_pos lanes_v cx cy n :
  is_vehicle_in_lane lanes_v cx cy = OK (Some n) → (1 ≤ n)%nat.
Proof.
  unfold is_vehicle_in_lane. destruct (Py.iter lanes_v) as [e|items]; [done|].
  apply lane_loop_ge.
Qed.

(** C3. Lane containment test: for a lane with corners [(x1, y1)] and
    [(x2, y2)] the condition of [is_vehicle_in_lane] is true exactly when
    [x1 <= cx <= x2] and [y1 >= cy >= y2], bounds included, and never
    raises; for the region (100,720)-(500,400) the point (300,500) is
    inside, (600,500) and (300,750) are outside. *)
Theorem lane_containment_test (x1 y1 x2 y2 cx cy : Z) :
  let l : lane := ((x1, y1), (x2, y2)) in
  (in_lane (point_val (x1, y1)) (point_val (x2, y2)) cx cy =
     OK (bool_decide (x1 ≤ cx ∧ cx ≤ x2 ∧ y1 >= cy ∧ cy >= y2))) ∧
  (is_vehicle_in_lane (lanes_val [l]) cx cy = OK (Some 1%nat) ↔
     x1 ≤ cx ∧ cx ≤ x2 ∧ y1 >= cy ∧ cy >= y2) ∧
  (is_vehicle_in_lane (lanes_val [l]) cx cy = OK None ↔
     ¬ (x1 ≤ cx ∧ cx ≤ x2 ∧ y1 >= cy ∧ cy >= y2)) ∧
  is_vehicle_in_lane (lanes_val [((100, 720), (500, 400))]) 300 500
    = OK (Some 1%nat) ∧
  is_vehicle_in_lane (lanes_val [((100, 720), (500, 400))]) 600 500
    = OK None ∧
  is_vehicle_in_lane (lanes_val [((100, 720), (500, 400))]) 300 750
    = OK None.
Proof.
  intros l. split; [apply (in_lane_points l)|].
  rewrite is_vehicle_in_lane_lanes. cbn [list_find].
  change (inside l cx cy) with (x1 ≤ cx ∧ cx ≤ x2 ∧ y1 >= cy ∧ cy >= y2).
  split; [|split; [|by vm_compute]];
    case_decide; simpl; intuition congruence.
Qed.

Lemma lane_loop_cons item items k cx cy :
  lane_loop (item :: items) k cx cy =
  let? hit := lane_test item cx cy in
  if hit then OK (Some k) else lane_loop items (S k) cx cy.
Proof.
  cbn [lane_loop]. unfold lane_test.
  by destruct (Py.unpack2 item) as [e|[p1 p2]].
Qed.

(** On any items, the loop answers [k + i] exactly when item [i] is the
    first whose test is true and the tests before it are false. *)
Lemma lane_loop_first_match items k cx cy n :
  lane_loop items k cx cy = OK (Some n) ↔
  ∃ i item,
    n = (k + i)%nat ∧ items !! i = Some item ∧
    lane_test item cx cy = OK true ∧
    ∀ j item', (j < i)%nat → items !! j = Some item' →
               lane_test item' cx cy = OK false.
Proof.
  revert k. induction items as [|item items IH]; intros k.
  { split; [done|]. by intros (i & item & _ & Hi & _). }
  rewrite lane_loop_cons.
  destruct (lane_test item cx cy) as [e|[|]] eqn:Ht; cbn [rbind].
  - split; [done|]. intros ([|i] & item' & _ & Hi & Hi' & Hfirst).
    + simpl in Hi. injection Hi as <-. congruence.
    + specialize (Hfirst 0%nat item ltac:(lia) eq_refl). congruence.
  - split.
    + intros [= <-]. exists 0%nat, item.
      repeat split; [lia | done | intros; lia].
    + intros ([|i] & item' & -> & Hi & Hi' & Hfirst); [f_equal; f_equal; lia|].
      specialize (Hfirst 0%nat item ltac:(lia) eq_refl). congruence.
  - rewrite IH. split.
    + intros (i & item' & -> & Hi & Hi' & Hfirst). exists (S i), item'.
      repeat split; [lia | done | done |].
      intros [|j] item'' Hj Hl; simpl in Hl; [injection Hl as <-; done|].
      apply (Hfirst j); [lia | done].
    + intros ([|i] & item' & -> & Hi & Hi' & Hfirst).
      * simpl in Hi. injection Hi as <-. congruence.
      * exists i, item'. repeat split; [lia | done | done |].
        intros j item'' Hj Hl. apply (Hfirst (S j)); [lia | done].
Qed.

(** C4. First match wins: whatever [self.lanes] holds, an answer [n] of
    [is_vehicle_in_lane] numbers the first item, in configuration order,
    whose test is true, every earlier test being false; on a list of
    lanes the answer is the number of the first lane that contains the
    point; so when lanes [i < j] both contain it the answer is at most
    [i + 1]; and a track counted at that point is credited to that first
    lane. *)
Theorem first_match_wins (ls : list lane) (cx cy : Z) :
  (∀ lanes_v n,
     is_vehicle_in_lane lanes_v cx cy = OK (Some n) ↔
     ∃ items i item,
       Py.iter lanes_v = OK items ∧
       n = S i ∧ items !! i = Some item ∧
       lane_test item cx cy = OK true ∧
       ∀ j item', (j < i)%nat → items !! j = Some item' →
                  lane_test item' cx cy = OK false) ∧
  (is_vehicle_in_lane (lanes_val ls) cx cy =
     OK ((λ hit, S hit.1) <$> list_find (λ l, inside l cx cy) ls)) ∧
  (∀ i l, ls !! i = Some l → inside l cx cy →
     (∀ j l', ls !! j = Some l' → (j < i)%nat → ¬ inside l' cx cy) →
     is_vehicle_in_lane (lanes_val ls) cx cy = OK (Some (S i))) ∧
  (∀ i j li lj, (i < j)%nat →
     ls !! i = Some li → ls !! j = Some lj →
     inside li cx cy → inside lj cx cy →
     ∃ n, is_vehicle_in_lane (lanes_val ls) cx cy = OK (Some n) ∧
          (1 ≤ n ≤ S i)%nat) ∧
  (∀ s frame_number t i l c,
     lanes s = lanes_val ls → centroid t = (cx, cy) →
     list_find (λ l, inside l cx cy) ls = Some (i, l) →
     is_confirmed t = true → track_id t ∉ counted_ids s →
     lane_counts s !! S i = Some c →
     let s' := (process_track frame_number t s).1 in
     lane_counts s' = <[S i := c + 1]> (lane_counts s) ∧
     ∀ ts, timestamp_of frame_number (fps s) = OK ts →
           output_data s' =
           output_data s ++ [Row (track_id t) (S i) frame_number ts]).
Proof.
  pose proof (is_vehicle_in_lane_lanes ls cx cy) as Hfind.
  split; [|split; [done|]; split; [|split]].
  - intros lanes_v n. unfold is_vehicle_in_lane.
    destruct (Py.iter lanes_v) as [e|items]; cbn [rbind].
    + split; [done|]. by intros (? & ? & ? & ? & _).
    + rewrite lane_loop_first_match. split.
      * intros (i & item & -> & H). by exists items, i, item.
      * intros (items' & i & item & [= <-] & -> & H). by exists i, item.
  - intros i l Hi Hin Hfirst. rewrite Hfind.
    assert (list_find (λ l, inside l cx cy) ls = Some (i, l)) as ->; [|done].
    apply list_find_Some. eauto.
  - intros i j li lj Hij Hi Hj Hini Hinj.
    destruct (list_find (λ l, inside l cx cy) ls) as [[k l]|] eqn:Hf.
    + exists (S k). split; [by rewrite Hfind|].
      apply list_find_Some in Hf as (_ & _ & Hfirst).
      destruct (decide (k ≤ i)%nat); [lia|].
      exfalso. apply (Hfirst i li); [done | lia | done].
    + apply list_find_None in Hf. rewrite Forall_forall in Hf.
      exfalso. apply (Hf li); [|done]. by eapply list_elem_of_lookup_2.
  - intros s frame_number t i l c Hl Hc Hf Hconf Hnew Hk s'. subst s'.
    assert (is_vehicle_in_lane (lanes s) (centroid t).1 (centroid t).2 =
            OK (Some (S i))) as Hlane.
    { rewrite Hl, Hc. cbn [fst snd]. by rewrite Hfind, Hf. }
    destruct (timestamp_of frame_number (fps s)) as [e|ts'] eqn:Hts.
    + erewrite process_track_no_stamp by done. split; [done|]. by intros ts.
    + erewrite process_track_counts by done. split; [done|].
      by intros ts [= <-].
Qed.

(** ** The first count of an identity *)

(** C2, as stated, fails: with a fourth lane configured, a confirmed new
    vehicle in lane 4 finds no counter; the increment raises [KeyError]
    and nothing is counted or logged. *)
Lemma first_counting_counterexample : ¬ first_counting_as_stated.
Proof.
  intros H.
  destruct (H FourLanes.session 1 FourLanes.vehicle 4%nat)
    as [(c & Hc & _) _]; [done | by vm_compute | set_solver |].
  vm_compute in Hc. discriminate.
Qed.

(** Without a frame rate the counter and the set move but the timestamp
    raises before the event is appended. *)
Example first_counting_without_fps :
  let s := Scenario.start in
  let t := Track true "A" (box_around 300 500) in
  let r := process_track 1 t s in
  r.2 = Err ZeroDivisionError ∧
  lane_counts r.1 !! 1%nat = Some 1 ∧
  "A" ∈ counted_ids r.1 ∧
  output_data r.1 = [].
Proof.
  cbn zeta.
  erewrite process_track_no_stamp
    with (n := 0%nat) (c := 0) (e := ZeroDivisionError);
    [| done | by vm_compute | set_solver | by vm_compute | by vm_compute].
  simpl. repeat split; set_solver.
Qed.

(** The same with a frame rate at which the quotient is a time that
    [time.gmtime] refuses: frame 1 at [2 ^ -70] frames per second. *)
Example first_counting_without_timestamp :
  let s := set_video 1280 720 Rates.tiny Scenario.start in
  let t := Track true "A" (box_around 300 500) in
  let r := process_track 1 t s in
  true_div 1 (FloatVal Rates.tiny) = OK (float_lit (2 ^ 70) 0) ∧
  r.2 = Err OverflowError ∧
  lane_counts r.1 !! 1%nat = Some 1 ∧
  "A" ∈ counted_ids r.1 ∧
  output_data r.1 = [].
Proof.
  cbn zeta. split; [by vm_compute|].
  erewrite process_track_no_stamp
    with (n := 0%nat) (c := 0) (e := OverflowError);
    [| done | by vm_compute | set_solver | by vm_compute | by vm_compute].
  simpl. repeat split; set_solver.
Qed.

(** C2, amended. A confirmed track whose centroid is in lane [n], whose
    identity is not yet counted and whose lane has a counter: the
    iteration adds one to that counter and inserts the identity; then,
    if the timestamp of the frame can be computed, it appends one event
    with that identity, lane and frame number and goes on to draw the
    box, and if not it raises with the counter and the set changed and
    no event.  And in the spec's three-frame scenario frame 1 brings the
    counts to 1, 0, 0 with the single event of A in lane 1 at frame 1,
    frames 2 and 3 change nothing, and the session ends normally in that
    state. *)
Theorem first_counting :
  (∀ s frame_number t n,
     is_confirmed t = true →
     is_vehicle_in_lane (lanes s) (centroid t).1 (centroid t).2 = OK (Some n) →
     track_id t ∉ counted_ids s →
     is_Some (lane_counts s !! n) →
     let r := process_track frame_number t s in
     (∃ c, lane_counts s !! n = Some c ∧
           lane_counts r.1 = <[n := c + 1]> (lane_counts s)) ∧
     counted_ids r.1 = {[track_id t]} ∪ counted_ids s ∧
     match timestamp_of frame_number (fps s) with
     | OK ts =>
         output_data r.1 =
           output_data s ++ [Row (track_id t) n frame_number ts] ∧
         first_counting_transition s frame_number t n ∧
         r.2 = draw_box t
     | Err e => output_data r.1 = output_data s ∧ r.2 = Err e
     end) ∧
  (lane_counts (Scenario.after 0) = {[ 1%nat := 0; 2%nat := 0; 3%nat := 0 ]} ∧
   output_data (Scenario.after 0) = [] ∧
   (∀ k, (1 ≤ k ≤ 3)%nat →
      lane_counts (Scenario.after k) = {[ 1%nat := 1; 2%nat := 0; 3%nat := 0 ]} ∧
      counted_ids (Scenario.after k) = {[ "A" ]} ∧
      output_data (Scenario.after k) = [Row "A" 1 1 "00:00:00"]) ∧
   Scenario.final.2 = OK tt ∧
   lane_counts Scenario.final.1 = {[ 1%nat := 1; 2%nat := 0; 3%nat := 0 ]} ∧
   counted_ids Scenario.final.1 = {[ "A" ]} ∧
   output_data Scenario.final.1 = [Row "A" 1 1 "00:00:00"]).
Proof.
  split.
  - intros s frame_number t n Hconf Hlane Hnew [c Hc] r. subst r.
    pose proof (is_vehicle_in_lane_pos _ _ _ _ Hlane) as Hpos.
    destruct n as [|n]; [lia|].
    destruct (timestamp_of frame_number (fps s)) as [e|ts] eqn:Hts.
    + erewrite process_track_no_stamp by done. cbn. eauto 10.
    + unfold first_counting_transition.
      erewrite process_track_counts by done. cbn. eauto 15.
  - split; [by vm_compute|]. split; [by vm_compute|]. split.
    + intros k Hk.
      assert (k = 1 ∨ k = 2 ∨ k = 3)%nat as [->|[->| ->]] by lia;
        vm_compute; repeat split.
    + vm_compute. repeat split.
Qed.

Lemma first_counting_witness :
  let s := (process_video (Capture true 1280 720 Scenario.rate 0 []) Scenario.start).1 in
  let t := Track true "A" (box_around 300 500) in
  let r := process_track 1 t s in
  (∃ c, lane_counts s !! 1%nat = Some c ∧
        lane_counts r.1 = <[1%nat := c + 1]> (lane_counts s)) ∧
  counted_ids r.1 = {[track_id t]} ∪ counted_ids s ∧
  match timestamp_of 1 (fps s) with
  | OK ts =>
      output_data r.1 = output_data s ++ [Row (track_id t) 1 1 ts] ∧
      first_counting_transition s 1 t 1 ∧
      r.2 = draw_box t
  | Err e => output_data r.1 = output_data s ∧ r.2 = Err e
  end.
Proof.
  apply (proj1 first_counting);
    [reflexivity | by vm_compute | apply (bool_decide_unpack _); by vm_compute
     | eexists; by vm_compute].
Defined.

(** ** Loading the configuration *)

Ltac unfold_load :=
  unfold load_lane_config, load_body, save_lane_config, try_except, print,
    bind, get, modify, lift, ret, json_load; simpl.

(** [load_lane_config] never raises. *)
Lemma load_lane_config_returns s : (load_lane_config s).2 = OK tt.
Proof. unfold_load. by repeat (case_match; simpl in *; simplify_eq). Qed.

(** It leaves the counting state alone. *)
Lemma load_lane_config_counting s :
  let s' := (load_lane_config s).1 in
  lane_counts s' = lane_counts s ∧
  counted_ids s' = counted_ids s ∧
  output_data s' = output_data s.
Proof. unfold_load. by repeat (case_match; simpl in *; simplify_eq). Qed.

Lemma new_analyzer_returns cfg : (new_analyzer cfg).2 = OK tt.
Proof.
  unfold new_analyzer, __init__, bind, print, modify. simpl.
  pose proof (load_lane_config_returns
    (init_attributes (set_stdout [Text "Loading YOLO model..."] (boot cfg)))) as H.
  by destruct (load_lane_config _) as [s' r].
Qed.

Lemma new_analyzer_counts cfg :
  lane_counts (new_analyzer cfg).1 = initial_counts.
Proof.
  unfold new_analyzer, __init__, bind, print, modify. simpl.
  pose proof (load_lane_config_counting
    (init_attributes (set_stdout [Text "Loading YOLO model..."] (boot cfg)))) as H.
  destruct (load_lane_config _) as [s' [e|[]]]; simpl in *; by destruct H.
Qed.

(** ** One counter per lane *)

(** A lane number returned by the loop numbers one of its items. *)
Lemma lane_loop_lt items k cx cy n :
  lane_loop items k cx cy = OK (Some n) → (n < k + length items)%nat.
Proof.
  revert k. induction items as [|item items IH]; intros k; [done|].
  cbn [lane_loop]. destruct (Py.unpack2 item) as [e|[p1 p2]]; [done|].
  cbn [rbind]. destruct (in_lane p1 p2 cx cy) as [e|[|]]; [done| |].
  - cbn [rbind]. intros [= ->]. simpl. lia.
  - cbn [rbind]. intros H. apply IH in H. simpl. lia.
Qed.

Lemma initial_counts_lookup n :
  (1 ≤ n ≤ 3)%nat → initial_counts !! n = Some 0.
Proof.
  intros H. assert (n = 1 ∨ n = 2 ∨ n = 3)%nat as [->|[->| ->]] by lia; done.
Qed.

(** C5, as stated, fails: the counters are not built from the loaded
    lanes; a file with four lanes leaves lane 4 without a counter. *)
Lemma counter_per_lane_counterexample : ¬ counter_per_lane_as_stated.
Proof.
  intros H.
  specialize (H (Some FourLanes.config) (lane_val <$> FourLanes.four_lanes) 4%nat).
  simpl in H. specialize (H eq_refl ltac:(lia)). vm_compute in H. discriminate.
Qed.

(** C5, amended. Construction always returns and always leaves exactly
    the three counters 1, 2 and 3, each 0, whatever configuration was
    loaded; so when the loaded configuration has at most three lanes,
    every configured lane number has a counter equal to 0 and every lane
    number the membership test returns is a key of [lane_counts]. *)
Theorem counter_per_lane (cfg : option file) :
  let s := (new_analyzer cfg).1 in
  (new_analyzer cfg).2 = OK tt ∧
  lane_counts s = {[ 1%nat := 0; 2%nat := 0; 3%nat := 0 ]} ∧
  dom (lane_counts s) = {[ 1%nat; 2%nat; 3%nat ]} ∧
  (∀ items,
     Py.iter (lanes s) = OK items →
     (length items ≤ 3)%nat →
     (∀ n, (1 ≤ n ≤ length items)%nat → lane_counts s !! n = Some 0) ∧
     (∀ cx cy n, is_vehicle_in_lane (lanes s) cx cy = OK (Some n) →
                 lane_counts s !! n = Some 0)).
Proof.
  intros s. subst s. split; [apply new_analyzer_returns|].
  rewrite new_analyzer_counts. split; [done|]. split; [by vm_compute|].
  intros items Hit Hlen. split.
  - intros n Hn. apply initial_counts_lookup. lia.
  - intros cx cy n Hn. apply initial_counts_lookup.
    pose proof (is_vehicle_in_lane_pos _ _ _ _ Hn) as Hpos.
    unfold is_vehicle_in_lane in Hn. rewrite Hit in Hn. simpl in Hn.
    apply lane_loop_lt in Hn. lia.
Qed.

Lemma counter_per_lane_witness :
  let s := (new_analyzer None).1 in
  (∀ n, (1 ≤ n ≤ 3)%nat → lane_counts s !! n = Some 0) ∧
  (∀ cx cy n, is_vehicle_in_lane (lanes s) cx cy = OK (Some n) →
              lane_counts s !! n = Some 0).
Proof.
  exact (proj2 (proj2 (proj2 (counter_per_lane None)))
           (lane_val <$> default_lanes) eq_refl ltac:(simpl; lia)).
Defined.

(** ** Fallback to the defaults *)

Lemma new_analyzer_absent : has_defaults (new_analyzer None).1.
Proof. by vm_compute. Qed.

(** A file that does not parse, or whose content has no ["lanes"] entry:
    the exception is caught before any attribute is assigned. *)
Lemma new_analyzer_no_lanes f e :
  (let? config := json_load f in Py.getitem config "lanes") = Err e →
  has_defaults (new_analyzer (Some f)).1 ∧
  stdout (new_analyzer (Some f)).1 =
    [ Text "Loading YOLO model..."; ErrorLoading e;
      Text "Using default lane configuration" ].
Proof.
  intros H. unfold new_analyzer, __init__. unfold_load.
  destruct f as [|v]; simpl in *; [by simplify_eq|].
  destruct (Py.getitem v "lanes") as [e'|lanes_v]; by simplify_eq.
Qed.

(** C6, the code at the failing input. The unpacking of
    ["target_frame_size"] raises after [self.lanes] has been assigned: the
    handler announces the default lane configuration, yet the session
    keeps the two lanes of the file next to the default 960 by 540. *)
Theorem malformed_size_keeps_file_lanes :
  let r := new_analyzer (Some PartialConfig.config) in
  r.2 = OK tt ∧
  lanes r.1 = lanes_val PartialConfig.file_lanes ∧
  lanes r.1 ≠ lanes_val default_lanes ∧
  target_width r.1 = PInt 960 ∧
  target_height r.1 = PInt 540 ∧
  stdout r.1 =
    [ Text "Loading YOLO model..."; ErrorLoading ValueError;
      Text "Using default lane configuration" ].
Proof. vm_compute. repeat split. discriminate. Qed.

(** ** The file written when none exists *)

(** C10. Loading with no [lane_config.json] writes one: the file then
    holds the session's lanes, the description and the frame size, and a
    second load finds it and reads it back (it reports "loaded", not "not
    found") with the same lanes and size.  For a new analyzer the file
    holds the three default lanes and 960 by 540, and an analyzer
    constructed afterwards in that directory loads them from the file. *)
Theorem absent_config_is_written :
  (∀ s, lane_config_json s = None →
     let s1 := (load_lane_config s).1 in
     let s2 := (load_lane_config s1).1 in
     lane_config_json s1 = Some (Json (config_of s)) ∧
     stdout s1 = stdout s ++
       [ Text "No lane_config.json found. Using default configuration.";
         Text "Lane configuration saved to lane_config.json" ] ∧
     lanes s1 = lanes s ∧
     stdout s2 = stdout s1 ++
       [ Text "Lane configuration loaded from lane_config.json" ] ∧
     lanes s2 = lanes s ∧
     target_width s2 = target_width s ∧
     target_height s2 = target_height s ∧
     lane_config_json s2 = lane_config_json s1) ∧
  (let first := (new_analyzer None).1 in
   let second := (new_analyzer (lane_config_json first)).1 in
   lane_config_json first =
     Some (Json (PDict
       [ ("lanes", lanes_val default_lanes);
         ("description", PStr "Lane coordinates for traffic flow analysis");
         ("target_frame_size", PList [PInt 960; PInt 540]) ])) ∧
   has_defaults first ∧
   stdout second =
     [ Text "Loading YOLO model...";
       Text "Lane configuration loaded from lane_config.json" ] ∧
   has_defaults second ∧
   lane_config_json second = lane_config_json first).
Proof.
  split.
  - intros s Hnone. unfold_load. rewrite Hnone. simpl.
    rewrite <- !app_assoc. done.
  - vm_compute. repeat split.
Qed.

Lemma absent_config_is_written_witness :
  let s := boot None in
  let s1 := (load_lane_config s).1 in
  let s2 := (load_lane_config s1).1 in
  lane_config_json s1 = Some (Json (config_of s)) ∧
  stdout s1 = stdout s ++
    [ Text "No lane_config.json found. Using default configuration.";
      Text "Lane configuration saved to lane_config.json" ] ∧
  lanes s1 = lanes s ∧
  stdout s2 = stdout s1 ++
    [ Text "Lane configuration loaded from lane_config.json" ] ∧
  lanes s2 = lanes s ∧
  target_width s2 = target_width s ∧
  target_height s2 = target_height s ∧
  lane_config_json s2 = lane_config_json s1.
Proof. apply (proj1 absent_config_is_written (boot None)). reflexivity. Defined.

(** ** Unfolding the video loop *)

Lemma process_video_closed cap s :
  isOpened cap = false →
  process_video cap s =
    (set_stdout (stdout s ++ [Text "Processing video..."]) s, Err ValueError).
Proof. intros H. unfold process_video, bind, print, modify, raise. by rewrite H. Qed.

Lemma process_video_opened cap s :
  isOpened cap = true →
  process_video cap s =
    match frames_loop (cap_frames cap) (cap_frame_count cap) 0
                      (video_start cap s) with
    | (s', inr _) =>
        (set_stdout (stdout s' ++ [Text "Video processing completed!"]) s', OK tt)
    | (s', inl e) => (s', Err e)
    end.
Proof.
  intros H. unfold process_video, bind, print, modify, raise, get. rewrite H.
  simpl. fold (video_start cap s).
  by destruct (frames_loop _ _ _ _) as [s' [e|[]]].
Qed.

Lemma new_analyzer_counting cfg :
  lane_counts (new_analyzer cfg).1 = initial_counts ∧
  counted_ids (new_analyzer cfg).1 = ∅ ∧
  output_data (new_analyzer cfg).1 = [].
Proof.
  unfold new_analyzer, __init__, bind, print, modify. simpl.
  pose proof (load_lane_config_counting
    (init_attributes (set_stdout [Text "Loading YOLO model..."] (boot cfg)))) as H.
  destruct (load_lane_config _) as [s' [e|[]]]; simpl in *; by destruct H as (-> & -> & ->).
Qed.

(** Reading a field of an updated state. *)
Ltac fields :=
  cbn [lanes target_width target_height lane_counts counted_ids output_data
       frame_width frame_height fps lane_config_json output_csv stdout
       set_lanes set_target set_lane_counts set_counted_ids set_output_data
       set_video set_lane_config_json set_output_csv set_stdout video_start
       counted fst snd] in *.

(** ** A zero reference size *)

(** C8, as stated, fails: a file with frame size [0, 540] is loaded
    without complaint and construction returns normally. *)
Lemma zero_size_counterexample : ¬ zero_size_fails_fast_as_stated.
Proof.
  intros H. destruct (H (Some ZeroSize.config)) as [e He].
  - left. reflexivity.
  - vm_compute in He. discriminate.
Qed.

(** No frame is resized to a size with a dimension that is zero or
    negative. *)
Lemma cv2_resize_not_positive w h z :
  Py.as_int w = OK z ∨ Py.as_int h = OK z → z ≤ 0 →
  cv2_resize w h = Err Cv2Error.
Proof.
  intros Hz Hle. unfold cv2_resize.
  destruct w as [| |a| | |]; try done. destruct h as [| |b| | |]; try done.
  destruct Hz as [[= ->]|[= ->]].
  - by destruct (Z.ltb_spec 0 z); [lia|].
  - destruct (Z.ltb_spec 0 z); [lia|]. by rewrite !andb_false_r.
Qed.

Lemma process_frame_not_positive f frame_number s z :
  Py.as_int (target_width s) = OK z ∨ Py.as_int (target_height s) = OK z →
  z ≤ 0 →
  process_frame f frame_number s = (s, Err Cv2Error).
Proof.
  intros Hz Hle. unfold process_frame, detect, bind, get, lift.
  by rewrite (cv2_resize_not_positive _ _ z).
Qed.

(** C8, amended. Construction never fails and keeps a zero dimension
    read from the file.  The failure comes with the frames, each of
    them: the resize to the reference size, the first statement of
    [process_frame], raises for a dimension that is zero or negative, so
    the frame is given up with the state untouched before anything is
    detected, scaled or counted, and a session over a video that opens
    and has a frame ends at the first one with nothing counted.  The
    division by a zero dimension, which would raise and not divide, is
    not reached. *)
Theorem zero_size_fails_at_every_frame :
  (∀ cfg, (new_analyzer cfg).2 = OK tt) ∧
  target_width (new_analyzer (Some ZeroSize.config)).1 = PInt 0 ∧
  (∀ s f frame_number z,
     Py.as_int (target_width s) = OK z ∨ Py.as_int (target_height s) = OK z →
     z ≤ 0 →
     process_frame f frame_number s = (s, Err Cv2Error)) ∧
  (∀ cfg cap z,
     let a := (new_analyzer cfg).1 in
     Py.as_int (target_width a) = OK z ∨ Py.as_int (target_height a) = OK z →
     z ≤ 0 →
     isOpened cap = true →
     cap_frames cap ≠ [] →
     (session cfg cap).2 = Err Cv2Error ∧
     lane_counts (session cfg cap).1 = initial_counts ∧
     counted_ids (session cfg cap).1 = ∅ ∧
     output_data (session cfg cap).1 = []) ∧
  (∀ s, Py.as_int (target_width s) = OK 0 →
        scale_detection s = Err ZeroDivisionError).
Proof.
  split; [apply new_analyzer_returns|]. split; [reflexivity|].
  split; [intros s f frame_number z; apply process_frame_not_positive|]. split.
  - intros cfg cap z a Hz Hle Hopen Hframes.
    destruct (new_analyzer_counting cfg) as (Hl & Hc & Ho).
    unfold session. fold a in Hl, Hc, Ho |- *.
    rewrite process_video_opened by done.
    destruct (cap_frames cap) as [|f frames]; [done|].
    cbn [frames_loop]. unfold bind.
    rewrite (process_frame_not_positive f (0 + 1) (video_start cap a) z)
      by done.
    by fields.
  - intros s Hw. unfold scale_detection, scale_factor. by rewrite Hw.
Qed.

Lemma zero_size_fails_at_every_frame_witness :
  let r := session (Some ZeroSize.config) Scenario.video in
  r.2 = Err Cv2Error ∧
  lane_counts r.1 = initial_counts ∧
  counted_ids r.1 = ∅ ∧
  output_data r.1 = [].
Proof.
  apply (proj1 (proj2 (proj2 (proj2 zero_size_fails_at_every_frame)))
           (Some ZeroSize.config) Scenario.video 0);
    [left; reflexivity | lia | reflexivity | discriminate].
Defined.

(** ** Event timestamps *)

(** C7, as stated, fails: at 30 frames per second frame 30 (1 s) and
    frame 45 (1.5 s) both carry the timestamp 00:00:01. *)
Lemma timestamp_counterexample : ¬ timestamp_is_quotient_as_stated.
Proof.
  intros H. specialize (H Scenario.rate 30 45 "00:00:01" eq_refl eq_refl).
  vm_compute in H. discriminate.
Qed.

Global Instance log_extends_preorder : PreOrder log_extends.
Proof.
  split.
  - intros s. split; [done|]. exists []. by rewrite app_nil_r.
  - intros s1 s2 s3 [Hf1 (n1 & Ho1 & Hs1)] [Hf2 (n2 & Ho2 & Hs2)].
    split; [congruence|]. exists (n1 ++ n2). split.
    + by rewrite Ho2, Ho1, app_assoc.
    + apply Forall_app. split; [done|]. by rewrite <- Hf1.
Qed.

Lemma process_track_log_extends frame_number t s :
  log_extends s (process_track frame_number t s).1.
Proof.
  destruct (process_track_outcome frame_number t s) as [|n c e ? ? ?|n c ts ? ? Hts].
  - reflexivity.
  - split; [done|]. exists []. by rewrite app_nil_r.
  - split; [done|]. eexists. split; [done|]. by apply Forall_singleton.
Qed.

(** What [time.gmtime] returns is the time of the float rounded down. *)
Lemma gmtime_ok t tm :
  gmtime t = OK tm → tm = broken_down (float_floor t).
Proof.
  unfold gmtime. destruct t as [s| | |s m e]; try done;
    repeat case_match; by intros [= <-].
Qed.

(** A timestamp that is computed is the time of day of the quotient. *)
Lemma timestamp_of_ok frame_number f ts :
  timestamp_of frame_number f = OK ts →
  ∃ x a, f = FloatVal x ∧
         float_of_int frame_number = OK a ∧
         is_zero x = false ∧
         let t := SpecFloat.SFdiv 53 1024 a x in
         true_div frame_number f = OK t ∧
         gmtime t = OK (broken_down (float_floor t)) ∧
         strftime (broken_down (float_floor t)) = OK ts.
Proof.
  unfold timestamp_of, true_div. destruct f as [|x]; [done|].
  destruct (float_of_int frame_number) as [e|a]; [done|]. cbn [rbind].
  destruct (is_zero x) eqn:Hz; [done|]. cbn [rbind].
  destruct (gmtime (SpecFloat.SFdiv 53 1024 a x)) as [e|tm] eqn:Hg; [done|].
  cbn [rbind]. intros Hs. apply gmtime_ok in Hg as Htm. subst tm.
  exists x, a. cbn zeta. rewrite Hg. repeat split; done.
Qed.

(** The seconds field of a rendered time of day has two digits. *)
Lemma two_digits_length n : 0 ≤ n < 100 → String.length (two_digits n) = 2%nat.
Proof.
  intros H.
  assert (Forall (λ k, String.length (two_digits (Z.of_nat k)) = 2%nat)
                 (seq 0 100)) as Hall.
  { apply (bool_decide_unpack _). by vm_compute. }
  rewrite Forall_forall in Hall.
  specialize (Hall (Z.to_nat n)). rewrite Z2Nat.id in Hall by lia.
  apply Hall. apply elem_of_seq. lia.
Qed.

(** The hour, minute and second of a time are those of its second of
    the day. *)
Lemma broken_down_fields secs :
  let tm := broken_down secs in
  0 ≤ tm_hour tm < 24 ∧ 0 ≤ tm_min tm < 60 ∧ 0 ≤ tm_sec tm < 60 ∧
  tm_hour tm * 3600 + tm_min tm * 60 + tm_sec tm = secs mod 86400.
Proof.
  unfold broken_down. cbn [tm_hour tm_min tm_sec]. set (day := secs mod 86400).
  assert (0 ≤ day < 86400) by (subst day; apply Z.mod_pos_bound; lia).
  pose proof (Z.div_mod day 3600 ltac:(lia)).
  pose proof (Z.mod_pos_bound day 3600 ltac:(lia)).
  pose proof (Z.div_mod (day mod 3600) 60 ltac:(lia)).
  pose proof (Z.mod_pos_bound (day mod 3600) 60 ltac:(lia)).
  assert (day mod 60 = (day mod 3600) mod 60) as Hmm.
  { symmetry. apply Z.mod_mod_divide. exists 60. lia. }
  assert (0 ≤ day / 3600 < 24).
  { split; [apply Z.div_pos; lia | apply Z.div_lt_upper_bound; lia]. }
  assert (0 ≤ day mod 3600 / 60 < 60).
  { split; [apply Z.div_pos; lia | apply Z.div_lt_upper_bound; lia]. }
  repeat split; lia.
Qed.

(** C7, amended. Every event recorded during a run carries the timestamp
    computed for its own frame number and the frame rate of the video;
    that timestamp is the time of day, written HH:MM:SS with two digits
    each, of the float quotient [frame / fps] rounded down to a whole
    second and taken modulo 24 hours, the quotient being the float
    nearest to the quotient of the frame number, as a float, by the
    frame rate.  The rounding shows: frame 72000 at 23.976023976023978
    frames per second is stamped 00:50:03, the float quotient being
    3003, not 00:50:02. *)
Theorem event_timestamps :
  (∀ frames total_frames frame_count s,
     ∃ new,
       output_data (frames_loop frames total_frames frame_count s).1 =
         output_data s ++ new ∧
       Forall (λ ev, timestamp_of (Frame ev) (fps s) = OK (Timestamp ev)) new) ∧
  (∀ cap s,
     ∃ new,
       output_data (process_video cap s).1 = output_data s ++ new ∧
       Forall (λ ev, timestamp_of (Frame ev) (FloatVal (cap_fps cap)) =
                     OK (Timestamp ev)) new) ∧
  (∀ frame_number f ts,
     timestamp_of frame_number f = OK ts →
     ∃ x a,
       f = FloatVal x ∧
       float_of_int frame_number = OK a ∧
       is_zero x = false ∧
       let t := SpecFloat.SFdiv 53 1024 a x in
       let secs := float_floor t mod 86400 in
       true_div frame_number f = OK t ∧
       ts = two_digits (secs / 3600) +:+ ":" +:+
            two_digits (secs mod 3600 / 60) +:+ ":" +:+ two_digits (secs mod 60) ∧
       String.length (two_digits (secs / 3600)) = 2%nat ∧
       String.length (two_digits (secs mod 3600 / 60)) = 2%nat ∧
       String.length (two_digits (secs mod 60)) = 2%nat) ∧
  (true_div 72000 (FloatVal Rates.ntsc_film) = OK (float_lit 3003 0) ∧
   timestamp_of 72000 (FloatVal Rates.ntsc_film) = OK "00:50:03" ∧
   timestamp_of 30 (FloatVal Scenario.rate) = OK "00:00:01" ∧
   timestamp_of 45 (FloatVal Scenario.rate) = OK "00:00:01").
Proof.
  assert (∀ o s, log_extends s (set_stdout o s)) as Hprint.
  { intros o s. split; [done|]. exists []. by rewrite app_nil_r. }
  assert (∀ frames total_frames frame_count s,
            log_extends s (frames_loop frames total_frames frame_count s).1)
    as Hrun.
  { intros. apply (frames_loop_preorder log_extends); [|done].
    intros. apply process_track_log_extends. }
  split; [|split; [|split]].
  - intros frames total_frames frame_count s.
    destruct (Hrun frames total_frames frame_count s) as [_ (new & Ho & Hn)].
    by exists new.
  - intros cap s. destruct (isOpened cap) eqn:Hopen.
    + rewrite process_video_opened by done.
      destruct (Hrun (cap_frames cap) (cap_frame_count cap) 0
                  (video_start cap s)) as [_ (new & Ho & Hn)].
      exists new.
      by destruct (frames_loop _ _ _ _) as [s' [e|[]]].
    + rewrite process_video_closed by done.
      exists []. split; [by rewrite app_nil_r | constructor].
  - intros frame_number f ts Hts.
    destruct (timestamp_of_ok _ _ _ Hts) as (x & a & -> & Ha & Hz & Hq & _ & Hs).
    exists x, a. split; [done|]. split; [done|]. split; [done|]. cbn zeta in *.
    set (t := SpecFloat.SFdiv 53 1024 a x) in *.
    destruct (broken_down_fields (float_floor t)) as (Hh & Hm & Hsec & _).
    unfold strftime in Hs. destruct (c_int _); [|done].
    injection Hs as <-. split; [done|]. split; [done|].
    repeat split; apply two_digits_length;
      cbn [broken_down tm_hour tm_min tm_sec] in *; lia.
  - by vm_compute.
Qed.

(** ** Writing the results *)

Ltac unfold_save :=
  unfold save_results, print_lane_total, save_lane_config, read_count, print,
    bind, get, modify, lift, ret; simpl.

(** [save_results] writes the log and changes nothing of the counting
    state, also when a summary line raises. *)
Lemma save_results_state s :
  let s' := (save_results s).1 in
  output_csv s' = Some (to_csv (output_data s)) ∧
  output_data s' = output_data s ∧
  lane_counts s' = lane_counts s ∧
  counted_ids s' = counted_ids s.
Proof. unfold_save. by repeat (case_match; simpl in *; simplify_eq). Qed.

Lemma save_results_returns s :
  is_Some (lane_counts s !! 1%nat) →
  is_Some (lane_counts s !! 2%nat) →
  is_Some (lane_counts s !! 3%nat) →
  (save_results s).2 = OK tt.
Proof.
  intros [c1 H1] [c2 H2] [c3 H3]. unfold_save.
  rewrite H1; simpl. rewrite H2; simpl. by rewrite H3.
Qed.

Global Instance csv_fields_inj : Inj (=) (=) csv_fields.
Proof.
  intros [i1 l1 f1 t1] [i2 l2 f2 t2]. unfold csv_fields. simpl.
  intros [= -> Hl Hf ->]. apply (inj pretty) in Hl. apply (inj pretty) in Hf.
  by subst.
Qed.

Lemma to_csv_lookup rows i :
  to_csv rows !! S i = csv_fields <$> rows !! i.
Proof.
  destruct rows as [|r rows]; [done|]. unfold to_csv.
  by rewrite lookup_cons, list_lookup_fmap.
Qed.

(** C9. Flushing writes the events in the order they were recorded, one
    line each after the header, dropping none (a line determines its
    event); it leaves the log and the counting state as they are, so a
    second flush writes the same file; and it returns normally whenever
    the three counters exist. *)
Theorem flush_is_idempotent (s : state) :
  let s1 := (save_results s).1 in
  let s2 := (save_results s1).1 in
  output_csv s1 = Some (to_csv (output_data s)) ∧
  (∀ i, to_csv (output_data s) !! S i = csv_fields <$> output_data s !! i) ∧
  (output_data s ≠ [] →
     to_csv (output_data s) = csv_header :: (csv_fields <$> output_data s)) ∧
  (∀ ev ev', csv_fields ev = csv_fields ev' → ev = ev') ∧
  output_data s1 = output_data s ∧
  lane_counts s1 = lane_counts s ∧
  counted_ids s1 = counted_ids s ∧
  output_csv s2 = output_csv s1 ∧
  output_data s2 = output_data s ∧
  (is_Some (lane_counts s !! 1%nat) →
   is_Some (lane_counts s !! 2%nat) →
   is_Some (lane_counts s !! 3%nat) →
   (save_results s).2 = OK tt ∧ (save_results s1).2 = OK tt).
Proof.
  intros s1 s2.
  destruct (save_results_state s) as (Hc1 & Hd1 & Hl1 & Hi1).
  destruct (save_results_state s1) as (Hc2 & Hd2 & Hl2 & Hi2).
  fold s1 in Hc1, Hd1, Hl1, Hi1. fold s2 in Hc2, Hd2, Hl2, Hi2.
  split; [done|]. split; [apply to_csv_lookup|].
  split; [by destruct (output_data s)|].
  split; [apply csv_fields_inj|].
  do 3 (split; [done|]). split; [by rewrite Hc2, Hd1|].
  split; [by rewrite Hd2|].
  intros H1 H2 H3. split; [by apply save_results_returns|].
  apply save_results_returns; by rewrite Hl1.
Qed.

Lemma flush_is_idempotent_witness :
  (save_results Scenario.final.1).2 = OK tt ∧
  (save_results (save_results Scenario.final.1).1).2 = OK tt.
Proof.
  apply (flush_is_idempotent Scenario.final.1);
    eexists; vm_compute; reflexivity.
Defined.

(** ** Witnesses for the counting theorems *)

Lemma at_most_once_counting_witness :
  let s := Scenario.final.1 in
  let s' := (frames_loop [Scenario.frame2] 3 3 s).1 in
  let s'' := (process_track 5 (Track true "A" (box_around 1000 500)) s').1 in
  lane_counts s'' = lane_counts s' ∧
  counted_ids s'' = counted_ids s' ∧
  output_data s'' = output_data s'.
Proof.
  apply (proj2 (proj2 (at_most_once_counting "A")) [Scenario.frame2] 3 3
           Scenario.final.1 5 (Track true "A" (box_around 1000 500)));
    [apply (bool_decide_unpack _); by vm_compute | reflexivity].
Defined.

Lemma first_match_wins_witness :
  let ls : list lane := [ ((0, 100), (100, 0)); ((50, 100), (150, 0)) ] in
  ∃ n, is_vehicle_in_lane (lanes_val ls) 75 50 = OK (Some n) ∧ (1 ≤ n ≤ 1)%nat.
Proof.
  apply (proj1 (proj2 (proj2 (proj2
           (first_match_wins [ ((0, 100), (100, 0)); ((50, 100), (150, 0)) ] 75 50))))
           0%nat 1%nat ((0, 100), (100, 0)) ((50, 100), (150, 0)));
    [lia | reflexivity | reflexivity | unfold inside; simpl; lia
     | unfold inside; simpl; lia].
Defined.

(** The scenario credits A exactly once. *)
Example scenario_credits :
  credits_frames "A" (cap_frames Scenario.video) 3 0
    (set_video 1280 720 Scenario.rate Scenario.start) = 1%nat ∧
  credits_frames "B" (cap_frames Scenario.video) 3 0
    (set_video 1280 720 Scenario.rate Scenario.start) = 0%nat.
Proof. by vm_compute. Qed.

(** * Further properties of the code *)

(** ** Properties kept along a run *)

Global Instance keeps_preorder P : PreOrder (keeps P).
Proof. unfold keeps. split; [intros s; done | intros s1 s2 s3; auto]. Qed.

Section kept.
Context (P : state → Prop).
Hypothesis kept_print : ∀ o s, P s → P (set_stdout o s).
Hypothesis kept_track : ∀ frame_number t s,
  P s → P (process_track frame_number t s).1.

Lemma frames_loop_keeps frames total_frames frame_count s :
  P s → P (frames_loop frames total_frames frame_count s).1.
Proof. apply (frames_loop_preorder (keeps P)); unfold keeps; auto. Qed.

Lemma process_frame_keeps f frame_number s :
  P s → P (process_frame f frame_number s).1.
Proof. apply (process_frame_preorder (keeps P)); unfold keeps; auto. Qed.

(** From the state in which the loop is entered to the end of
    [process_video]. *)
Lemma process_video_keeps cap s :
  isOpened cap = true →
  P (video_start cap s) → P (process_video cap s).1.
Proof.
  intros Ho Hs. rewrite process_video_opened by done.
  pose proof (frames_loop_keeps (cap_frames cap) (cap_frame_count cap) 0 _ Hs).
  destruct (frames_loop _ _ _ _) as [s' [e|[]]]; simpl in *; auto.
Qed.

End kept.

(** ** Properties kept by what returns normally *)

(** A property that every iteration of the track loop keeps when it
    returns is kept by a track loop, a frame, a video loop and
    [process_video] when they return. *)
Section kept_on_return.
Context (P : state → Prop).
Hypothesis return_print : ∀ o s, P s → P (set_stdout o s).
Hypothesis return_track : ∀ frame_number t s,
  P s → (process_track frame_number t s).2 = OK tt →
  P (process_track frame_number t s).1.

Lemma tracks_loop_returns frame_number ts s :
  P s → (for_each ts (process_track frame_number) s).2 = OK tt →
  P (for_each ts (process_track frame_number) s).1.
Proof.
  revert s. induction ts as [|t ts IH]; intros s Hs; [done|].
  rewrite for_each_cons.
  pose proof (return_track frame_number t s Hs) as Ht.
  destruct (process_track frame_number t s) as [s' [e|[]]]; [done|].
  apply IH. by apply Ht.
Qed.

Lemma process_frame_returns f frame_number s :
  P s → (process_frame f frame_number s).2 = OK tt →
  P (process_frame f frame_number s).1.
Proof.
  intros Hs.
  destruct (process_frame_unfold f frame_number s) as [(e & _ & ->)|[_ ->]];
    [done|].
  pose proof (tracks_loop_returns frame_number (tracks f) s Hs) as Ht.
  destruct (for_each (tracks f) (process_track frame_number) s)
    as [s' [e|[]]]; [done|].
  intros _. by apply Ht.
Qed.

Lemma report_progress_returns frame_count total_frames s :
  P s → P (report_progress frame_count total_frames s).1.
Proof.
  intros Hs. unfold report_progress, print, modify, raise, ret.
  repeat case_match; simpl; auto.
Qed.

Lemma frames_loop_returns frames total_frames frame_count s :
  P s → (frames_loop frames total_frames frame_count s).2 = OK tt →
  P (frames_loop frames total_frames frame_count s).1.
Proof.
  revert frame_count s. induction frames as [|f frames IH];
    intros frame_count s Hs; [done|].
  cbn [frames_loop]. unfold bind.
  pose proof (process_frame_returns f (frame_count + 1) s Hs) as Hf.
  destruct (process_frame f (frame_count + 1) s) as [s1 [e|[]]]; [done|].
  pose proof (report_progress_returns (frame_count + 1) total_frames s1
                (Hf eq_refl)) as Hr.
  destruct (report_progress (frame_count + 1) total_frames s1)
    as [s2 [e|[]]]; [done|].
  by apply IH.
Qed.

Lemma process_video_returns cap s :
  P (video_start cap s) → (process_video cap s).2 = OK tt →
  P (process_video cap s).1.
Proof.
  intros Hs. destruct (isOpened cap) eqn:Hopen.
  - rewrite process_video_opened by done.
    pose proof (frames_loop_returns (cap_frames cap) (cap_frame_count cap) 0
                  _ Hs) as Hf.
    destruct (frames_loop _ _ _ _) as [s' [e|[]]]; [done|].
    intros _. apply return_print. by apply Hf.
  - by rewrite process_video_closed.
Qed.

End kept_on_return.

(** ** Each vehicle once in the log *)

Lemma log_once_track frame_number t s :
  log_once s → log_once (process_track frame_number t s).1.
Proof.
  intros [Hnd Hin].
  destruct (process_track_outcome frame_number t s)
    as [|n c e Hnew _ _|n c ts Hnew _ _].
  - done.
  - split; fields; [done|]. intros ev Hev. apply Hin in Hev. set_solver.
  - split; fields.
    + rewrite fmap_app. apply NoDup_app. split; [done|]. split.
      * intros id Hid [<-|[]]%list_elem_of_In.
        apply list_elem_of_fmap in Hid as (ev & Hid & Hev).
        apply Hnew. assert (track_id t = VehicleID ev) as -> by exact Hid.
        by apply Hin.
      * apply NoDup_singleton.
    + intros ev [Hev| ->%list_elem_of_singleton]%elem_of_app.
      * apply Hin in Hev. set_solver.
      * cbn [VehicleID]. set_solver.
Qed.

(** An iteration that returns has logged what it counted. *)
Lemma log_complete_track frame_number t s :
  log_complete s → (process_track frame_number t s).2 = OK tt →
  log_complete (process_track frame_number t s).1.
Proof.
  intros Hiff. destruct (is_confirmed t) eqn:Hc;
    [|by rewrite process_track_unconfirmed].
  destruct (is_vehicle_in_lane (lanes s) (centroid t).1 (centroid t).2)
    as [e|[[|n]|]] eqn:He.
  - by erewrite process_track_lane_error.
  - by rewrite process_track_no_lane by auto.
  - destruct (decide (track_id t ∈ counted_ids s)) as [Hin|Hin].
    { by erewrite process_track_already_counted. }
    destruct (lane_counts s !! S n) as [c|] eqn:Hk.
    2:{ by erewrite process_track_no_counter. }
    destruct (timestamp_of frame_number (fps s)) as [e|ts] eqn:Hts.
    { by erewrite process_track_no_stamp. }
    erewrite process_track_counts by done. intros _.
    unfold log_complete in *. fields.
    intros id. rewrite fmap_app, elem_of_app.
    rewrite elem_of_union, Hiff, elem_of_singleton.
    cbn [fmap list_fmap VehicleID]. rewrite list_elem_of_singleton. tauto.
  - by rewrite process_track_no_lane by auto.
Qed.

Lemma session_closed cfg cap :
  isOpened cap = false →
  session cfg cap =
    (set_stdout (stdout (new_analyzer cfg).1 ++ [Text "Processing video..."])
                (new_analyzer cfg).1, Err ValueError).
Proof. apply process_video_closed. Qed.

Lemma session_log_once cfg cap : log_once (session cfg cap).1.
Proof.
  destruct (new_analyzer_counting cfg) as (_ & Hc & Ho).
  unfold session. destruct (new_analyzer cfg) as [a ra]. cbn [fst] in *.
  assert (log_once a) as Ha.
  { split; rewrite Ho; [constructor | by intros ev ?%elem_of_nil]. }
  destruct (isOpened cap) eqn:Hopen.
  - by apply process_video_keeps;
      [by intros o s [? ?] | apply log_once_track | | ].
  - by rewrite process_video_closed.
Qed.

Lemma session_log_complete cfg cap :
  (session cfg cap).2 = OK tt → log_complete (session cfg cap).1.
Proof.
  destruct (new_analyzer_counting cfg) as (_ & Hc & Ho).
  unfold session. destruct (new_analyzer cfg) as [a ra]. cbn [fst] in *.
  apply process_video_returns;
    [by intros o s | apply log_complete_track |].
  unfold log_complete. fields. rewrite Hc, Ho. intros id. set_solver.
Qed.

(** X1. In every session the log holds each vehicle identity at most
    once and only identities that are counted; when the session returns
    normally the counted identities are exactly those of the log, so
    there are as many of them as there are rows. *)
Theorem log_rows_are_distinct_vehicles (cfg : option file) (cap : capture) :
  let s := (session cfg cap).1 in
  NoDup (VehicleID <$> output_data s) ∧
  (∀ ev, ev ∈ output_data s → VehicleID ev ∈ counted_ids s) ∧
  ((session cfg cap).2 = OK tt →
   (∀ id, id ∈ counted_ids s ↔ id ∈ VehicleID <$> output_data s) ∧
   size (counted_ids s) = length (output_data s)).
Proof.
  intros s. destruct (session_log_once cfg cap) as [Hnd Hin].
  split; [done|]. split; [done|]. intros Hok.
  pose proof (session_log_complete cfg cap Hok) as Hiff. split; [done|].
  assert (counted_ids s = list_to_set (VehicleID <$> output_data s)) as ->.
  { apply set_eq. intros id. rewrite elem_of_list_to_set. apply Hiff. }
  by rewrite size_list_to_set, length_fmap.
Qed.

Lemma log_rows_are_distinct_vehicles_witness :
  let s := (session None Scenario.video).1 in
  (∀ id, id ∈ counted_ids s ↔ id ∈ VehicleID <$> output_data s) ∧
  size (counted_ids s) = length (output_data s).
Proof.
  apply (log_rows_are_distinct_vehicles None Scenario.video). by vm_compute.
Defined.

(** ** Orders kept by the whole of [process_video] *)

Section video_preorder.
Context (R : relation state) `{!PreOrder R}.
Hypothesis track_step : ∀ frame_number t s,
  R s (process_track frame_number t s).1.
Hypothesis print_step : ∀ o s, R s (set_stdout o s).
Hypothesis video_step : ∀ w h f s, R s (set_video w h f s).

Lemma video_start_preorder cap s : R s (video_start cap s).
Proof.
  unfold video_start. cbn zeta.
  etrans; [apply print_step|]. etrans; [apply video_step|].
  etrans; [apply print_step|]. apply print_step.
Qed.

Lemma process_video_preorder cap s : R s (process_video cap s).1.
Proof.
  destruct (isOpened cap) eqn:Ho.
  - rewrite process_video_opened by done.
    pose proof (video_start_preorder cap s) as H0.
    pose proof (frames_loop_preorder R track_step print_step
                  (cap_frames cap) (cap_frame_count cap) 0 (video_start cap s)) as H1.
    destruct (frames_loop _ _ _ _) as [s' [e|[]]]; cbn [fst] in *.
    + by etrans.
    + etrans; [exact H0|]. etrans; [exact H1|]. apply print_step.
  - rewrite process_video_closed by done. apply print_step.
Qed.

End video_preorder.

(** ** Counters: fixed keys, counts that only grow *)

Global Instance counters_le_preorder : PreOrder counters_le.
Proof.
  split.
  - intros s. split; [done|]. intros n c Hc. exists c. split; [done|lia].
  - intros s1 s2 s3 [Hd1 Hm1] [Hd2 Hm2]. split; [congruence|].
    intros n c Hc. destruct (Hm1 n c Hc) as (c' & Hc' & Hle).
    destruct (Hm2 n c' Hc') as (c'' & Hc'' & Hle'). exists c''.
    split; [done|lia].
Qed.

Lemma counters_le_same s s' :
  lane_counts s' = lane_counts s → counters_le s s'.
Proof.
  intros H. split; rewrite H; [done|]. intros n c Hc. exists c. split; [done|lia].
Qed.

Lemma counters_le_track frame_number t s :
  counters_le s (process_track frame_number t s).1.
Proof.
  assert (∀ n c, lane_counts s !! S n = Some c →
            counters_le s (set_lane_counts (<[S n := c + 1]> (lane_counts s)) s))
    as Hins.
  { intros n c Hc. split; fields.
    - rewrite dom_insert_L. apply subseteq_union_1_L.
      apply singleton_subseteq_l. by apply elem_of_dom_2 in Hc.
    - intros m d Hd. destruct (decide (m = S n)) as [->|Hne].
      + rewrite lookup_insert_eq. exists (c + 1). split; [done|].
        rewrite Hc in Hd. injection Hd as <-. lia.
      + rewrite lookup_insert_ne by done. exists d. split; [done|lia]. }
  destruct (process_track_outcome frame_number t s) as [|n c e _ Hc _|n c ts _ Hc _].
  - reflexivity.
  - apply (Hins n c Hc).
  - apply (Hins n c Hc).
Qed.

Lemma process_video_counters cap s : counters_le s (process_video cap s).1.
Proof.
  apply process_video_preorder;
    [apply _ | apply counters_le_track | | ]; intros; by apply counters_le_same.
Qed.

(** X2. Whatever state it starts from and however it ends,
    [process_video] leaves [lane_counts] with the same keys and with no
    count smaller than before. *)
Theorem counters_fixed_and_monotone (cap : capture) (s : state) :
  let s' := (process_video cap s).1 in
  dom (lane_counts s') = dom (lane_counts s) ∧
  (∀ n, lane_counts s !! n = None → lane_counts s' !! n = None) ∧
  (∀ n c, lane_counts s !! n = Some c →
          ∃ c', lane_counts s' !! n = Some c' ∧ c ≤ c').
Proof.
  destruct (process_video_counters cap s) as [Hd Hm].
  split; [done|]. split; [|done].
  intros n Hn. apply not_elem_of_dom. rewrite Hd. by apply not_elem_of_dom.
Qed.

Lemma counters_fixed_and_monotone_witness :
  let s := (new_analyzer None).1 in
  ∃ c', lane_counts (process_video Scenario.video s).1 !! 1%nat = Some c' ∧ 0 ≤ c'.
Proof.
  apply (proj2 (proj2 (counters_fixed_and_monotone Scenario.video
                         (new_analyzer None).1)) 1%nat 0).
  reflexivity.
Defined.

(** ** The configuration during a run *)

Global Instance same_configuration_preorder : PreOrder same_configuration.
Proof.
  split.
  - by intros s.
  - intros s1 s2 s3 (?&?&?&?&?) (?&?&?&?&?). repeat split; congruence.
Qed.

(** X3. [process_video] never changes the lanes or the reference size in
    memory and writes neither [lane_config.json] nor [output.csv]: only
    [save_results] does. *)
Theorem video_loop_keeps_configuration (cap : capture) (s : state) :
  let s' := (process_video cap s).1 in
  lanes s' = lanes s ∧
  target_width s' = target_width s ∧
  target_height s' = target_height s ∧
  lane_config_json s' = lane_config_json s ∧
  output_csv s' = output_csv s.
Proof.
  apply (process_video_preorder same_configuration); try done.
  intros frame_number t s0.
  by destruct (process_track_outcome frame_number t s0).
Qed.
(** ** Counters and log agree *)

Lemma lane_events_nil n : lane_events n [] = 0.
Proof. reflexivity. Qed.

Lemma lane_events_app n l1 l2 :
  lane_events n (l1 ++ l2) = lane_events n l1 + lane_events n l2.
Proof. unfold lane_events. rewrite filter_app, length_app. lia. Qed.

Lemma lane_events_singleton n ev :
  lane_events n [ev] = if decide (Lane ev = n) then 1 else 0.
Proof.
  unfold lane_events. rewrite filter_cons, filter_nil. by case_decide.
Qed.

(** The counter moves before the event is appended. *)
Lemma counts_cover_log_track frame_number t s :
  counts_cover_log s → counts_cover_log (process_track frame_number t s).1.
Proof.
  intros H.
  destruct (process_track_outcome frame_number t s)
    as [|n c e _ Hc _|n c ts _ Hc _]; [done| |];
    unfold counts_cover_log in *; fields; intros m d;
    rewrite ?lane_events_app, ?lane_events_singleton; cbn [Lane];
    (destruct (decide (S n = m)) as [<-|Hne];
     [rewrite lookup_insert_eq; intros [= <-]; specialize (H _ _ Hc); lia
     |rewrite lookup_insert_ne by done; intros Hd; specialize (H _ _ Hd); lia]).
Qed.

(** An iteration that returns has logged what it counted. *)
Lemma counts_match_log_track frame_number t s :
  counts_match_log s → (process_track frame_number t s).2 = OK tt →
  counts_match_log (process_track frame_number t s).1.
Proof.
  intros H. destruct (is_confirmed t) eqn:Hconf;
    [|by rewrite process_track_unconfirmed].
  destruct (is_vehicle_in_lane (lanes s) (centroid t).1 (centroid t).2)
    as [e|[[|n]|]] eqn:He.
  - by erewrite process_track_lane_error.
  - by rewrite process_track_no_lane by auto.
  - destruct (decide (track_id t ∈ counted_ids s)) as [Hin|Hin].
    { by erewrite process_track_already_counted. }
    destruct (lane_counts s !! S n) as [c|] eqn:Hk.
    2:{ by erewrite process_track_no_counter. }
    destruct (timestamp_of frame_number (fps s)) as [e|ts] eqn:Hts.
    { by erewrite process_track_no_stamp. }
    erewrite process_track_counts by done. intros _.
    unfold counts_match_log in *. fields. intros m d.
    rewrite lane_events_app, lane_events_singleton. cbn [Lane].
    destruct (decide (S n = m)) as [<-|Hne].
    + rewrite lookup_insert_eq. intros [= <-]. specialize (H _ _ Hk). lia.
    + rewrite lookup_insert_ne by done. intros Hd. specialize (H _ _ Hd). lia.
  - by rewrite process_track_no_lane by auto.
Qed.

Lemma session_counter_keys cfg cap n :
  is_Some (lane_counts (session cfg cap).1 !! n) ↔ (1 ≤ n ≤ 3)%nat.
Proof.
  destruct (new_analyzer_counting cfg) as (Hl & _ & _).
  destruct (process_video_counters cap (new_analyzer cfg).1) as [Hd _].
  fold (session cfg cap) in Hd. rewrite Hl in Hd.
  rewrite <- elem_of_dom, Hd.
  unfold initial_counts. rewrite !dom_insert_L, dom_singleton_L.
  set_unfold. lia.
Qed.

Lemma initial_counts_zero n c : initial_counts !! n = Some c → c = 0.
Proof.
  unfold initial_counts. intros H.
  destruct (decide (n = 1%nat)) as [->|?].
  { rewrite lookup_insert_eq in H. by injection H. }
  rewrite lookup_insert_ne in H by done.
  destruct (decide (n = 2%nat)) as [->|?].
  { rewrite lookup_insert_eq in H. by injection H. }
  rewrite lookup_insert_ne in H by done.
  destruct (decide (n = 3%nat)) as [->|?].
  { rewrite lookup_singleton_eq in H. by injection H. }
  by rewrite lookup_singleton_ne in H.
Qed.

Lemma new_analyzer_counts_match cfg :
  counts_match_log (new_analyzer cfg).1 ∧ counts_cover_log (new_analyzer cfg).1.
Proof.
  destruct (new_analyzer_counting cfg) as (Hl & _ & Ho).
  unfold counts_match_log, counts_cover_log. rewrite Hl, Ho.
  split; intros n c Hc%initial_counts_zero; rewrite lane_events_nil; lia.
Qed.

Lemma session_counts_cover_log cfg cap :
  counts_cover_log (session cfg cap).1.
Proof.
  destruct (new_analyzer_counts_match cfg) as [_ Ha].
  unfold session. destruct (isOpened cap) eqn:Hopen.
  - by apply process_video_keeps;
      [by intros o s | apply counts_cover_log_track | | ].
  - by rewrite process_video_closed.
Qed.

Lemma session_counts_match_log cfg cap :
  (session cfg cap).2 = OK tt → counts_match_log (session cfg cap).1.
Proof.
  destruct (new_analyzer_counts_match cfg) as [Ha _].
  unfold session.
  by apply process_video_returns;
    [by intros o s | apply counts_match_log_track |].
Qed.

(** X4. In a session each of the counters 1, 2 and 3 is there and is
    never below the number of events of the log in that lane, wherever
    the video loop ended; when the session returns normally it equals
    that number. *)
Theorem lane_counts_match_log (cfg : option file) (cap : capture) :
  let s := (session cfg cap).1 in
  ∀ n, (1 ≤ n ≤ 3)%nat →
       ∃ c, lane_counts s !! n = Some c ∧
            lane_events n (output_data s) ≤ c ∧
            ((session cfg cap).2 = OK tt → c = lane_events n (output_data s)).
Proof.
  intros s n Hn. subst s.
  destruct (proj2 (session_counter_keys cfg cap n) Hn) as [c Hc].
  exists c. split; [done|]. split.
  - by apply (session_counts_cover_log cfg cap).
  - intros Hok. by apply (session_counts_match_log cfg cap Hok).
Qed.

Lemma lane_counts_match_log_witness :
  let s := (session None Scenario.video).1 in
  ∃ c, lane_counts s !! 1%nat = Some c ∧
       lane_events 1 (output_data s) ≤ c ∧
       ((session None Scenario.video).2 = OK tt →
        c = lane_events 1 (output_data s)).
Proof. apply (lane_counts_match_log None Scenario.video). lia. Defined.

(** ** The lanes of the log *)

Lemma logged_lanes_counted_track frame_number t s :
  logged_lanes_counted s → logged_lanes_counted (process_track frame_number t s).1.
Proof.
  intros H.
  assert (∀ n c (rows : list row),
            (∀ ev, ev ∈ rows → ev ∈ output_data s ∨ Lane ev = S n) →
            ∀ ev, ev ∈ rows →
                  is_Some (<[S n := c + 1]> (lane_counts s) !! Lane ev)) as Hins.
  { intros n c rows Hrows ev Hev. rewrite lookup_insert_is_Some.
    destruct (Hrows ev Hev) as [Hold| ->]; [|by left].
    destruct (decide (S n = Lane ev)); [by left | right; split; [done|]].
    by apply H. }
  destruct (process_track_outcome frame_number t s)
    as [|n c e _ _ _|n c ts _ _ _];
    [done| |]; unfold logged_lanes_counted; fields; apply Hins.
  - auto.
  - intros ev [Hev| ->%list_elem_of_singleton]%elem_of_app; auto.
Qed.

Lemma session_logged_lanes_counted cfg cap :
  logged_lanes_counted (session cfg cap).1.
Proof.
  destruct (new_analyzer_counting cfg) as (_ & _ & Ho).
  assert (logged_lanes_counted (new_analyzer cfg).1) as Ha.
  { unfold logged_lanes_counted. rewrite Ho. by intros ? ?%elem_of_nil. }
  unfold session. destruct (isOpened cap) eqn:Hopen.
  - by apply process_video_keeps;
      [by intros o s | apply logged_lanes_counted_track | | ].
  - by rewrite process_video_closed.
Qed.

(** X5. Every event a session logs names lane 1, 2 or 3: the lanes that
    have a counter. *)
Theorem logged_lanes_are_counters (cfg : option file) (cap : capture) :
  ∀ ev, ev ∈ output_data (session cfg cap).1 → (1 ≤ Lane ev ≤ 3)%nat.
Proof.
  intros ev Hev. apply (session_counter_keys cfg cap).
  by apply session_logged_lanes_counted.
Qed.

Lemma logged_lanes_are_counters_witness :
  (1 ≤ Lane (Row "A" 1 1 "00:00:00") ≤ 3)%nat.
Proof.
  apply (logged_lanes_are_counters None Scenario.video).
  replace (output_data (session None Scenario.video).1)
    with [Row "A" 1 1 "00:00:00"] by (by vm_compute).
  apply list_elem_of_here.
Defined.

(** ** The summary printed by [save_results] *)

Lemma sum_of_three_counters (a b c : Z) :
  map_fold (λ (_ : nat) c acc, c + acc) 0
           ({[ 1%nat := a; 2%nat := b; 3%nat := c ]} : gmap nat Z) = a + b + c.
Proof.
  rewrite map_fold_insert_L; [| intros; lia | done].
  rewrite map_fold_insert_L; [| intros; lia | done].
  rewrite map_fold_singleton. lia.
Qed.

Lemma lane_events_total (log : list row) :
  Forall (λ ev, (1 ≤ Lane ev ≤ 3)%nat) log →
  lane_events 1 log + lane_events 2 log + lane_events 3 log =
  Z.of_nat (length log).
Proof.
  induction 1 as [|ev log Hev _ IH]; [done|].
  change (ev :: log) with ([ev] ++ log).
  rewrite !lane_events_app, !lane_events_singleton, length_app.
  cbn [length]. repeat case_decide; lia.
Qed.

Lemma session_three_counters cfg cap :
  (session cfg cap).2 = OK tt →
  let log := output_data (session cfg cap).1 in
  lane_counts (session cfg cap).1 =
    {[ 1%nat := lane_events 1 log; 2%nat := lane_events 2 log;
       3%nat := lane_events 3 log ]}.
Proof.
  intros Hok log. apply map_eq. intros n.
  pose proof (session_counts_match_log cfg cap Hok n) as Hm.
  pose proof (session_counter_keys cfg cap n) as Hk. fold log in Hm.
  destruct (decide (n = 1%nat)) as [->|H1].
  { destruct (proj2 Hk ltac:(lia)) as [c Hc].
    by rewrite lookup_insert_eq, Hc, (Hm c Hc). }
  rewrite (lookup_insert_ne _ 1%nat n) by lia.
  destruct (decide (n = 2%nat)) as [->|H2].
  { destruct (proj2 Hk ltac:(lia)) as [c Hc].
    by rewrite lookup_insert_eq, Hc, (Hm c Hc). }
  rewrite (lookup_insert_ne _ 2%nat n) by lia.
  destruct (decide (n = 3%nat)) as [->|H3].
  { destruct (proj2 Hk ltac:(lia)) as [c Hc].
    by rewrite lookup_singleton_eq, Hc, (Hm c Hc). }
  rewrite lookup_singleton_ne by lia.
  destruct (lane_counts (session cfg cap).1 !! n) as [c|] eqn:Hc; [|done].
  assert (1 ≤ n ≤ 3)%nat by (apply Hk; eauto). lia.
Qed.

Lemma save_results_stdout s c1 c2 c3 :
  lane_counts s !! 1%nat = Some c1 →
  lane_counts s !! 2%nat = Some c2 →
  lane_counts s !! 3%nat = Some c3 →
  stdout (save_results s).1 =
    stdout s ++
    [ ResultsSaved (length (output_data s));
      Text (String "010" rule);
      Text "TRAFFIC FLOW ANALYSIS SUMMARY";
      Text rule;
      LaneTotal 1 c1; LaneTotal 2 c2; LaneTotal 3 c3;
      Total (map_fold (λ _ c acc, c + acc) 0 (lane_counts s));
      Text rule;
      Text "Lane configuration saved to lane_config.json" ].
Proof.
  intros H1 H2 H3. unfold_save.
  rewrite H1; fields. rewrite H2; fields. rewrite H3; fields.
  by rewrite <- !app_assoc.
Qed.

(** X6. After a session that returned normally, [save_results] returns
    normally and its summary agrees with the file it wrote: the number
    of records, the total over the lanes and the sum of the three lane
    lines printed are the same number, each lane line being the number
    of rows of that lane. *)
Theorem summary_matches_log (cfg : option file) (cap : capture) :
  (session cfg cap).2 = OK tt →
  let s := (session cfg cap).1 in
  let log := output_data s in
  (save_results s).2 = OK tt ∧
  output_csv (save_results s).1 = Some (to_csv log) ∧
  stdout (save_results s).1 =
    stdout s ++
    [ ResultsSaved (length log);
      Text (String "010" rule);
      Text "TRAFFIC FLOW ANALYSIS SUMMARY";
      Text rule;
      LaneTotal 1 (lane_events 1 log);
      LaneTotal 2 (lane_events 2 log);
      LaneTotal 3 (lane_events 3 log);
      Total (Z.of_nat (length log));
      Text rule;
      Text "Lane configuration saved to lane_config.json" ] ∧
  lane_events 1 log + lane_events 2 log + lane_events 3 log =
    Z.of_nat (length log).
Proof.
  intros Hok s log.
  assert (lane_events 1 log + lane_events 2 log + lane_events 3 log =
          Z.of_nat (length log)) as Htotal.
  { apply lane_events_total, Forall_forall. intros ev Hev.
    apply (session_logged_lanes_counted cfg cap) in Hev.
    by apply session_counter_keys in Hev. }
  pose proof (session_three_counters cfg cap Hok) as Hmap.
  fold s in Hmap. fold log in Hmap. cbn zeta in Hmap.
  assert (lane_counts s !! 1%nat = Some (lane_events 1 log)) as H1.
  { rewrite Hmap. apply lookup_insert_eq. }
  assert (lane_counts s !! 2%nat = Some (lane_events 2 log)) as H2.
  { rewrite Hmap. rewrite lookup_insert_ne by done. apply lookup_insert_eq. }
  assert (lane_counts s !! 3%nat = Some (lane_events 3 log)) as H3.
  { rewrite Hmap. rewrite !lookup_insert_ne by done. apply lookup_singleton_eq. }
  split; [apply save_results_returns; eauto|].
  split; [apply save_results_state|]. split; [|done].
  rewrite (save_results_stdout s _ _ _ H1 H2 H3).
  by rewrite Hmap, sum_of_three_counters, Htotal.
Qed.

Lemma summary_matches_log_witness :
  let s := (session None Scenario.video).1 in
  (save_results s).2 = OK tt ∧
  output_csv (save_results s).1 = Some (to_csv (output_data s)).
Proof.
  split; apply (summary_matches_log None Scenario.video); by vm_compute.
Defined.

(** X7. After any session, however the video loop ended, [save_results]
    returns normally: the three counters its summary reads are always
    there; it writes the log and the configuration. *)
Theorem flush_after_any_session (cfg : option file) (cap : capture) :
  let s := (session cfg cap).1 in
  (save_results s).2 = OK tt ∧
  output_csv (save_results s).1 = Some (to_csv (output_data s)) ∧
  lane_config_json (save_results s).1 = Some (Json (config_of s)).
Proof.
  intros s.
  destruct (proj2 (session_counter_keys cfg cap 1) ltac:(lia)) as [c1 H1].
  destruct (proj2 (session_counter_keys cfg cap 2) ltac:(lia)) as [c2 H2].
  destruct (proj2 (session_counter_keys cfg cap 3) ltac:(lia)) as [c3 H3].
  fold s in H1, H2, H3. unfold_save.
  rewrite H1; fields. rewrite H2; fields. rewrite H3; fields. done.
Qed.

(** ** Frame numbers in the log *)

(** What a run appended to the log. *)
Lemma tracks_loop_frames frame_number ts s :
  ∃ new,
    output_data (for_each ts (process_track frame_number) s).1 =
      output_data s ++ new ∧
    Forall (λ ev, Frame ev = frame_number) new.
Proof.
  revert s. induction ts as [|t ts IH]; intros s.
  { exists []. split; [by rewrite app_nil_r | constructor]. }
  rewrite for_each_cons.
  assert (∃ new, output_data (process_track frame_number t s).1 =
                   output_data s ++ new ∧
                 Forall (λ ev, Frame ev = frame_number) new)
    as (n1 & Ho1 & Hf1).
  { destruct (process_track_outcome frame_number t s).
    - exists []. split; [by rewrite app_nil_r | constructor].
    - exists []. split; [by rewrite app_nil_r | constructor].
    - eexists. split; [done|]. by apply Forall_singleton. }
  destruct (process_track frame_number t s) as [s' [e|[]]]; cbn [fst] in *.
  - by exists n1.
  - destruct (IH s') as (n2 & Ho2 & Hf2). exists (n1 ++ n2).
    split; [by rewrite Ho2, Ho1, app_assoc | by apply Forall_app].
Qed.

Lemma process_frame_frames f frame_number s :
  ∃ new,
    output_data (process_frame f frame_number s).1 = output_data s ++ new ∧
    Forall (λ ev, Frame ev = frame_number) new.
Proof.
  destruct (process_frame_unfold f frame_number s) as [(e & _ & ->)|[_ ->]].
  - exists []. split; [by rewrite app_nil_r | constructor].
  - destruct (tracks_loop_frames frame_number (tracks f) s) as (new & Ho & Hf).
    exists new.
    by destruct (for_each (tracks f) (process_track frame_number) s)
      as [s' [e|[]]].
Qed.

Lemma report_progress_output frame_count total_frames s :
  output_data (report_progress frame_count total_frames s).1 = output_data s.
Proof.
  unfold report_progress, print, modify, raise, ret.
  repeat case_match; simpl; done.
Qed.

Lemma frames_loop_frames frames total_frames frame_count s :
  ∃ new,
    output_data (frames_loop frames total_frames frame_count s).1 =
      output_data s ++ new ∧
    Forall (λ ev, frame_count < Frame ev ≤ frame_count + Z.of_nat (length frames)) new ∧
    StronglySorted Z.le (Frame <$> new).
Proof.
  revert frame_count s. induction frames as [|f frames IH]; intros frame_count s.
  { exists []. split; [by rewrite app_nil_r|]. split; constructor. }
  cbn [frames_loop]. unfold bind.
  destruct (process_frame_frames f (frame_count + 1) s) as (n1 & Ho1 & Hf1).
  assert (Forall (λ ev, frame_count < Frame ev ≤
                        frame_count + Z.of_nat (length (f :: frames))) n1) as Hr1.
  { eapply Forall_impl; [exact Hf1|]. intros ev ->. cbn [length]. lia. }
  assert (StronglySorted Z.le (Frame <$> n1)) as Hs1.
  { clear -Hf1. induction Hf1 as [|ev n1 Hev Hall IH]; [constructor|].
    rewrite fmap_cons. constructor; [done|].
    apply Forall_fmap. eapply Forall_impl; [exact Hall|].
    intros ev' Hev'. unfold compose. cbn beta in *. lia. }
  destruct (process_frame f (frame_count + 1) s) as [s1 [e|[]]]; cbn [fst] in *.
  { by exists n1. }
  pose proof (report_progress_output (frame_count + 1) total_frames s1) as Hrp.
  destruct (report_progress (frame_count + 1) total_frames s1)
    as [s2 [e|[]]]; cbn [fst] in *.
  { exists n1. by rewrite Hrp. }
  destruct (IH (frame_count + 1) s2) as (n2 & Ho2 & Hf2 & Hs2).
  exists (n1 ++ n2). split; [by rewrite Ho2, Hrp, Ho1, app_assoc|]. split.
  - apply Forall_app. split; [done|].
    eapply Forall_impl; [exact Hf2|]. intros ev Hev. cbn [length] in *. lia.
  - rewrite fmap_app. apply StronglySorted_app_2; [|done|done].
    intros x1 x2 (ev1 & -> & Hev1)%list_elem_of_fmap
                 (ev2 & -> & Hev2)%list_elem_of_fmap.
    rewrite Forall_forall in Hf1, Hf2.
    specialize (Hf1 ev1 Hev1). specialize (Hf2 ev2 Hev2). lia.
Qed.

(** X8. The log of a session is in frame order: frame numbers never
    decrease along it, and each lies between 1 and the number of frames
    the video yielded. *)
Theorem log_is_in_frame_order (cfg : option file) (cap : capture) :
  let log := output_data (session cfg cap).1 in
  StronglySorted Z.le (Frame <$> log) ∧
  Forall (λ ev, 1 ≤ Frame ev ≤ Z.of_nat (length (cap_frames cap))) log.
Proof.
  intros log. subst log.
  destruct (new_analyzer_counting cfg) as (_ & _ & Ho).
  unfold session. destruct (new_analyzer cfg) as [a ra]. cbn [fst] in *.
  destruct (isOpened cap) eqn:Hopen.
  - rewrite process_video_opened by done.
    destruct (frames_loop_frames (cap_frames cap) (cap_frame_count cap) 0
                (video_start cap a)) as (new & Hnew & Hf & Hs).
    assert (output_data (video_start cap a) = []) as Hstart by (by fields).
    rewrite Hstart in Hnew. cbn [app] in Hnew.
    assert (Forall (λ ev, 1 ≤ Frame ev ≤ Z.of_nat (length (cap_frames cap))) new) as Hf'.
    { eapply Forall_impl; [exact Hf|]. intros ev Hev. cbn beta in Hev. lia. }
    destruct (frames_loop _ _ _ _) as [s' [e|[]]]; cbn [fst] in *; fields;
      by rewrite Hnew.
  - rewrite process_video_closed by done. fields. rewrite Ho.
    split; constructor.
Qed.

(** ** More lanes than counters *)

(** The labels cannot be drawn when an item numbered from [k] has no
    counter. *)
Lemma draw_loop_missing counts items k j :
  (j < length items)%nat → counts !! (k + j)%nat = None →
  ∃ e, draw_loop counts items k = Err e.
Proof.
  revert k j. induction items as [|item items IH]; intros k j Hj Hnone;
    [simpl in Hj; lia|].
  cbn [draw_loop]. destruct (Py.unpack2 item) as [e|[p1 p2]]; [by eexists|].
  cbn [rbind].
  destruct (cv2_point p1) as [e|[]]; [by eexists|]. cbn [rbind].
  destruct (cv2_point p2) as [e|[]]; [by eexists|]. cbn [rbind].
  destruct j as [|j].
  - rewrite Nat.add_0_r in Hnone. unfold read_count. rewrite Hnone. by eexists.
  - destruct (read_count counts k) as [e|c]; [by eexists|]. cbn [rbind].
    destruct (Py.index p1 0) as [e|x]; [by eexists|]. cbn [rbind].
    destruct (Py.index p1 1) as [e|y]; [by eexists|]. cbn [rbind].
    destruct (Py.as_int y) as [e|y']; [by eexists|]. cbn [rbind].
    destruct (cv2_point (PList [x; PInt (y' - 10)])) as [e|[]]; [by eexists|].
    cbn [rbind].
    apply (IH (S k) j); [simpl in Hj; lia|].
    by replace (S k + j)%nat with (k + S j)%nat by lia.
Qed.

Lemma draw_fails s items j :
  Py.iter (lanes s) = OK items →
  (j < length items)%nat → lane_counts s !! S j = None →
  ∃ e, draw_lanes_and_counts s = (s, Err e).
Proof.
  intros Hit Hj Hnone. unfold draw_lanes_and_counts, bind, get, lift.
  rewrite Hit. cbn [rbind].
  destruct (draw_loop_missing (lane_counts s) items 1 j Hj Hnone) as [e ->].
  by eexists.
Qed.

(** What the track loop leaves of the lanes and of the missing keys. *)
Lemma tracks_loop_lanes_and_keys frame_number ts s :
  let s' := (for_each ts (process_track frame_number) s).1 in
  lanes s' = lanes s ∧
  ∀ n, lane_counts s !! n = None → lane_counts s' !! n = None.
Proof.
  intros s'. subst s'. split.
  - apply (tracks_loop_preorder same_configuration).
    intros fn t s0. by destruct (process_track_outcome fn t s0).
  - destruct (tracks_loop_preorder counters_le counters_le_track
                frame_number ts s) as [Hd _].
    intros n Hn. apply not_elem_of_dom. rewrite Hd. by apply not_elem_of_dom.
Qed.

Lemma process_frame_fails_without_counter f frame_number s items j :
  Py.iter (lanes s) = OK items →
  (j < length items)%nat → lane_counts s !! S j = None →
  ∃ e, (process_frame f frame_number s).2 = Err e.
Proof.
  intros Hit Hj Hnone.
  destruct (process_frame_unfold f frame_number s) as [(e & _ & ->)|[_ ->]];
    [by eexists|].
  destruct (tracks_loop_lanes_and_keys frame_number (tracks f) s) as [Hl Hk].
  destruct (for_each (tracks f) (process_track frame_number) s)
    as [s' [e|[]]]; cbn [fst snd] in *; [by eexists|].
  destruct (draw_fails s' items j) as [e ->]; [by rewrite Hl | done | auto |].
  by eexists.
Qed.

(** The lanes of a file that has a ["lanes"] entry are taken, whatever
    else the file holds. *)
Lemma new_analyzer_lanes kvs v :
  Py.assoc "lanes" kvs = Some v →
  lanes (new_analyzer (Some (Json (PDict kvs)))).1 = v.
Proof.
  intros Hv. unfold new_analyzer, __init__. unfold_load. rewrite Hv. simpl.
  by repeat (case_match; simpl in *; simplify_eq).
Qed.

(** X9. A configuration file that lists more than three lanes makes
    every session fail on its first frame, whatever the frame holds: the
    fourth lane has no counter, so the increment or, at the latest, the
    drawing of the lane labels raises. *)
Theorem more_than_three_lanes_fail (kvs : list (string * pyval)) (v : pyval)
  (items : list pyval) (cap : capture) :
  Py.assoc "lanes" kvs = Some v →
  Py.iter v = OK items →
  (3 < length items)%nat →
  isOpened cap = true →
  cap_frames cap ≠ [] →
  ∃ e, (session (Some (Json (PDict kvs))) cap).2 = Err e.
Proof.
  intros Hv Hit Hlen Hopen Hframes.
  pose proof (new_analyzer_lanes kvs v Hv) as Hl.
  destruct (new_analyzer_counting (Some (Json (PDict kvs)))) as (Hc & _ & _).
  unfold session. destruct (new_analyzer _) as [a ra]. cbn [fst] in *.
  rewrite process_video_opened by done.
  destruct (cap_frames cap) as [|f frames]; [done|].
  cbn [frames_loop]. unfold bind.
  destruct (process_frame_fails_without_counter f (0 + 1) (video_start cap a)
              items 3) as [e He]; [by fields; rewrite Hl | done | |].
  { fields. by rewrite Hc. }
  destruct (process_frame f (0 + 1) (video_start cap a)) as [s1 r1].
  cbn [snd] in He. subst r1. by exists e.
Qed.

Lemma more_than_three_lanes_fail_witness :
  ∃ e, (session (Some FourLanes.config) Scenario.video).2 = Err e.
Proof.
  apply (more_than_three_lanes_fail _ (lanes_val FourLanes.four_lanes)
           (lane_val <$> FourLanes.four_lanes) Scenario.video);
    [reflexivity | reflexivity | simpl; lia | reflexivity | discriminate].
Defined.

(** ** A video that reports no frames *)

Lemma frames_loop_zero_total frames frame_count s j :
  (1 ≤ j ≤ length frames)%nat →
  (frame_count + Z.of_nat j) mod 30 = 0 →
  ∃ e, (frames_loop frames 0 frame_count s).2 = Err e.
Proof.
  revert frame_count s j. induction frames as [|f frames IH];
    intros frame_count s j Hj Hmod; [simpl in Hj; lia|].
  cbn [frames_loop]. unfold bind.
  destruct (process_frame f (frame_count + 1) s) as [s1 [e|[]]]; [by eexists|].
  unfold report_progress.
  destruct (Z.eqb_spec ((frame_count + 1) mod 30) 0) as [Hz|Hnz].
  - cbn. by eexists.
  - unfold ret. destruct j as [|[|j]]; [lia | |].
    { exfalso. apply Hnz. rewrite <- Hmod. f_equal. }
    apply (IH (frame_count + 1) s1 (S j)); [simpl in Hj; lia|].
    rewrite <- Hmod. f_equal. lia.
Qed.

(** X10. When the capture reports a frame count of 0, [process_video]
    cannot get past frame 30: a video that yields at least 30 frames
    ends in an exception (the progress line divides by the count). *)
Theorem zero_frame_count_aborts (cap : capture) (s : state) :
  isOpened cap = true →
  cap_frame_count cap = 0 →
  (30 ≤ length (cap_frames cap))%nat →
  ∃ e, (process_video cap s).2 = Err e.
Proof.
  intros Hopen Hzero Hlen. rewrite process_video_opened by done.
  destruct (frames_loop_zero_total (cap_frames cap) 0 (video_start cap s) 30)
    as [e He]; [lia | done |].
  rewrite Hzero.
  destruct (frames_loop (cap_frames cap) 0 0 (video_start cap s)) as [s' r].
  cbn [snd] in He. subst r. by exists e.
Qed.

Lemma zero_frame_count_aborts_witness :
  ∃ e, (process_video
          (Capture true 1280 720 Scenario.rate 0 (replicate 30 (VideoFrame [] [])))
          Scenario.start).2 = Err e.
Proof.
  apply zero_frame_count_aborts; [reflexivity | reflexivity | simpl; lia].
Defined.
(** ** No vehicle is missed *)

Lemma process_track_ok_counted frame_number t s :
  (process_track frame_number t s).2 = OK tt →
  lanes (process_track frame_number t s).1 = lanes s ∧
  ∀ id, id ∈ counted_ids (process_track frame_number t s).1 ↔
        id ∈ counted_ids s ∨ (track_id t = id ∧ countable (lanes s) t).
Proof.
  unfold countable. destruct (is_confirmed t) eqn:Hc.
  2:{ rewrite process_track_unconfirmed by done. intros _. split; [done|].
      intros id. split; [auto|]. by intros [?|[_ [? _]]]. }
  destruct (is_vehicle_in_lane (lanes s) (centroid t).1 (centroid t).2)
    as [e|[[|n]|]] eqn:He.
  - by erewrite process_track_lane_error.
  - by apply is_vehicle_in_lane_pos in He; lia.
  - destruct (decide (track_id t ∈ counted_ids s)) as [Hin|Hnew].
    { erewrite process_track_already_counted by done. intros _.
      split; [done|]. intros id. split; [auto|]. by intros [?|[<- _]]. }
    destruct (lane_counts s !! S n) as [c|] eqn:Hk.
    2:{ by erewrite process_track_no_counter. }
    destruct (timestamp_of frame_number (fps s)) as [e|ts] eqn:Hts.
    { by erewrite process_track_no_stamp. }
    erewrite process_track_counts by done. intros _. split; [done|].
    intros id. fields. rewrite elem_of_union, elem_of_singleton.
    split; [intros [->|?]; eauto | intros [?|[<- _]]; auto].
  - rewrite process_track_no_lane by auto. intros _. split; [done|].
    intros id. split; [auto|]. by intros [?|[_ [_ [n Hn]]]].
Qed.

Lemma tracks_loop_ok_counted frame_number ts s :
  (for_each ts (process_track frame_number) s).2 = OK tt →
  lanes (for_each ts (process_track frame_number) s).1 = lanes s ∧
  ∀ id, id ∈ counted_ids (for_each ts (process_track frame_number) s).1 ↔
        id ∈ counted_ids s ∨
        ∃ t, t ∈ ts ∧ track_id t = id ∧ countable (lanes s) t.
Proof.
  revert s. induction ts as [|t ts IH]; intros s.
  { intros _. split; [done|]. intros id. split; [auto|].
    by intros [?|(t & ?%elem_of_nil & _)]. }
  rewrite for_each_cons.
  pose proof (process_track_ok_counted frame_number t s) as Ht.
  destruct (process_track frame_number t s) as [s' [e|[]]]; [done|].
  cbn [fst snd] in Ht. destruct (Ht eq_refl) as [Hl Hiff]. intros Hok.
  destruct (IH s' Hok) as [Hl' Hiff']. split; [congruence|].
  intros id. rewrite Hiff', Hiff, Hl. split.
  - intros [[?|[? ?]]|(t' & ? & ? & ?)]; [auto| |].
    + right. exists t. split; [by left|done].
    + right. exists t'. split; [by right|done].
  - intros [?|(t' & [->|?]%elem_of_cons & ? & ?)]; [auto| |].
    + auto.
    + right. by exists t'.
Qed.

(** X12. When a frame is processed without an exception, the identities
    counted afterwards are exactly those counted before together with
    those of the frame's confirmed tracks whose centroid is in a lane: no
    such vehicle is missed and no other is added. *)
Theorem frame_counts_every_vehicle_in_a_lane (f : frame) (frame_number : Z)
  (s : state) :
  (process_frame f frame_number s).2 = OK tt →
  ∀ id, id ∈ counted_ids (process_frame f frame_number s).1 ↔
        id ∈ counted_ids s ∨
        ∃ t, t ∈ tracks f ∧ track_id t = id ∧ countable (lanes s) t.
Proof.
  destruct (process_frame_unfold f frame_number s) as [(e & _ & ->)|[_ ->]];
    [done|].
  pose proof (tracks_loop_ok_counted frame_number (tracks f) s) as Ht.
  destruct (for_each (tracks f) (process_track frame_number) s)
    as [s' [e|[]]]; [done|].
  intros _. by apply Ht.
Qed.

Lemma frame_counts_every_vehicle_in_a_lane_witness :
  let s := video_start Scenario.video Scenario.start in
  "A" ∈ counted_ids (process_frame Scenario.frame1 1 s).1 ↔
  "A" ∈ counted_ids s ∨
  ∃ t, t ∈ tracks Scenario.frame1 ∧ track_id t = "A" ∧ countable (lanes s) t.
Proof.
  apply (frame_counts_every_vehicle_in_a_lane Scenario.frame1 1
           (video_start Scenario.video Scenario.start)).
  by vm_compute.
Defined.

(** ** What a configuration file does to a new analyzer *)

(** The analyzer constructed next to a file: the attributes of
    [__init__] with the lanes and the reference size given. *)
Lemma new_analyzer_dict kvs v :
  Py.assoc "lanes" kvs = Some v →
  let made lanes_v w h log :=
    (State lanes_v w h initial_counts ∅ [] 0 0 IntZero
           (Some (Json (PDict kvs))) None
           (Text "Loading YOLO model..." :: log), OK tt) in
  new_analyzer (Some (Json (PDict kvs))) =
    match Py.assoc "target_frame_size" kvs with
    | None =>
        made v (PInt 960) (PInt 540)
             [Text "Lane configuration loaded from lane_config.json"]
    | Some size =>
        match Py.unpack2 size with
        | inr (w, h) =>
            made v w h [Text "Lane configuration loaded from lane_config.json"]
        | inl e =>
            made v (PInt 960) (PInt 540)
                 [ErrorLoading e; Text "Using default lane configuration"]
        end
    end.
Proof.
  intros Hv made. subst made. unfold new_analyzer, __init__. unfold_load.
  rewrite Hv. simpl.
  destruct (Py.assoc "target_frame_size" kvs) as [size|]; simpl; [|done].
  by destruct (Py.unpack2 size) as [e|[w h]].
Qed.

(** X13. A file with a ["lanes"] entry and either no
    ["target_frame_size"] or one that unpacks into two values is taken as
    it is, without any check of the values: the lanes become the entry,
    the reference size becomes the two values or stays 960 by 540, the
    load reports success and leaves the file alone. *)
Theorem load_takes_file_values (kvs : list (string * pyval)) (v : pyval) :
  Py.assoc "lanes" kvs = Some v →
  let r := new_analyzer (Some (Json (PDict kvs))) in
  (Py.assoc "target_frame_size" kvs = None →
   lanes r.1 = v ∧ target_width r.1 = PInt 960 ∧ target_height r.1 = PInt 540 ∧
   stdout r.1 = [ Text "Loading YOLO model...";
                  Text "Lane configuration loaded from lane_config.json" ] ∧
   lane_config_json r.1 = Some (Json (PDict kvs))) ∧
  (∀ size w h,
     Py.assoc "target_frame_size" kvs = Some size →
     Py.unpack2 size = OK (w, h) →
     lanes r.1 = v ∧ target_width r.1 = w ∧ target_height r.1 = h ∧
     stdout r.1 = [ Text "Loading YOLO model...";
                    Text "Lane configuration loaded from lane_config.json" ] ∧
     lane_config_json r.1 = Some (Json (PDict kvs))).
Proof.
  intros Hv r. subst r. rewrite (new_analyzer_dict kvs v Hv). split.
  - by intros ->.
  - intros size w h -> Hu. by rewrite Hu.
Qed.

Lemma load_takes_file_values_witness :
  let kvs := [ ("lanes", PInt 5);
               ("target_frame_size", PList [PStr "a"; PNone]) ] in
  let r := new_analyzer (Some (Json (PDict kvs))) in
  lanes r.1 = PInt 5 ∧ target_width r.1 = PStr "a" ∧ target_height r.1 = PNone ∧
  stdout r.1 = [ Text "Loading YOLO model...";
                 Text "Lane configuration loaded from lane_config.json" ] ∧
  lane_config_json r.1 = Some (Json (PDict kvs)).
Proof.
  apply (proj2 (load_takes_file_values
                  [ ("lanes", PInt 5);
                    ("target_frame_size", PList [PStr "a"; PNone]) ]
                  (PInt 5) eq_refl)
           (PList [PStr "a"; PNone]) (PStr "a") PNone);
    reflexivity.
Defined.

(** X14. The load is not all or nothing: whenever the file has a
    ["lanes"] entry and a ["target_frame_size"] that does not unpack into
    two values, the lanes of the file are kept, the reference size stays
    960 by 540, the handler reports the exception and the default
    configuration, and construction returns normally. *)
Theorem load_is_not_atomic (kvs : list (string * pyval)) (v size : pyval)
  (e : exn) :
  Py.assoc "lanes" kvs = Some v →
  Py.assoc "target_frame_size" kvs = Some size →
  Py.unpack2 size = Err e →
  let r := new_analyzer (Some (Json (PDict kvs))) in
  r.2 = OK tt ∧
  lanes r.1 = v ∧ target_width r.1 = PInt 960 ∧ target_height r.1 = PInt 540 ∧
  stdout r.1 = [ Text "Loading YOLO model..."; ErrorLoading e;
                 Text "Using default lane configuration" ].
Proof.
  intros Hv Hs Hu r. subst r. rewrite (new_analyzer_dict kvs v Hv), Hs, Hu.
  done.
Qed.

Lemma load_is_not_atomic_witness :
  let r := new_analyzer (Some (Json (PDict
             [ ("lanes", lanes_val default_lanes);
               ("target_frame_size", PInt 960) ]))) in
  r.2 = OK tt ∧
  lanes r.1 = lanes_val default_lanes ∧
  target_width r.1 = PInt 960 ∧ target_height r.1 = PInt 540 ∧
  stdout r.1 = [ Text "Loading YOLO model..."; ErrorLoading TypeError;
                 Text "Using default lane configuration" ].
Proof.
  apply (load_is_not_atomic
           [ ("lanes", lanes_val default_lanes);
             ("target_frame_size", PInt 960) ]
           (lanes_val default_lanes) (PInt 960) TypeError);
    reflexivity.
Defined.

(** X15. A file that cannot be parsed, or whose content has no
    ["lanes"] entry, gives an analyzer with the built-in defaults and a
    report of the exception; the file is left as it is, so the next
    analyzer constructed in that directory meets the same failure. *)
Theorem unreadable_file_is_kept (f : file) (e : exn) :
  (let? config := json_load f in Py.getitem config "lanes") = Err e →
  let r := new_analyzer (Some f) in
  r.2 = OK tt ∧
  has_defaults r.1 ∧
  stdout r.1 = [ Text "Loading YOLO model..."; ErrorLoading e;
                 Text "Using default lane configuration" ] ∧
  lane_config_json r.1 = Some f ∧
  new_analyzer (lane_config_json r.1) = r.
Proof.
  intros H r. subst r.
  assert (lane_config_json (new_analyzer (Some f)).1 = Some f) as Hfile.
  { unfold new_analyzer, __init__. unfold_load.
    destruct f as [|v]; simpl in *; [done|].
    by destruct (Py.getitem v "lanes") as [e'|lanes_v]. }
  destruct (new_analyzer_no_lanes f e H) as [Hd Ho].
  split; [apply new_analyzer_returns|]. by rewrite Hfile.
Qed.

Lemma unreadable_file_is_kept_witness :
  let r := new_analyzer (Some Unparsable) in
  r.2 = OK tt ∧
  has_defaults r.1 ∧
  stdout r.1 = [ Text "Loading YOLO model..."; ErrorLoading JSONDecodeError;
                 Text "Using default lane configuration" ] ∧
  lane_config_json r.1 = Some Unparsable ∧
  new_analyzer (lane_config_json r.1) = r.
Proof. apply (unreadable_file_is_kept Unparsable JSONDecodeError). reflexivity. Defined.

(** X16. What a session saves is what the next one starts with: an
    analyzer constructed on the file written by [save_lane_config], or by
    a [save_results] that returned normally, has the lanes and the
    reference size of the session that wrote it, whatever those values
    are. *)
Theorem saved_configuration_round_trip (s : state) :
  let next f := (new_analyzer f).1 in
  (lanes (next (lane_config_json (save_lane_config s).1)) = lanes s ∧
   target_width (next (lane_config_json (save_lane_config s).1)) = target_width s ∧
   target_height (next (lane_config_json (save_lane_config s).1)) = target_height s) ∧
  ((save_results s).2 = OK tt →
   lanes (next (lane_config_json (save_results s).1)) = lanes s ∧
   target_width (next (lane_config_json (save_results s).1)) = target_width s ∧
   target_height (next (lane_config_json (save_results s).1)) = target_height s).
Proof.
  intros next.
  assert (lanes (next (Some (Json (config_of s)))) = lanes s ∧
          target_width (next (Some (Json (config_of s)))) = target_width s ∧
          target_height (next (Some (Json (config_of s)))) = target_height s)
    as Hnext.
  { subst next. unfold config_of. cbn beta.
    by rewrite (new_analyzer_dict
                  [ ("lanes", lanes s); ("description", PStr description);
                    ("target_frame_size",
                     PList [target_width s; target_height s]) ]
                  (lanes s) eq_refl). }
  split; [exact Hnext|]. intros Hok.
  assert (lane_config_json (save_results s).1 = Some (Json (config_of s)))
    as ->; [|exact Hnext].
  revert Hok. unfold_save.
  by repeat (case_match; simpl in *; simplify_eq).
Qed.

Lemma saved_configuration_round_trip_witness :
  let s := (session None Scenario.video).1 in
  let next f := (new_analyzer f).1 in
  lanes (next (lane_config_json (save_results s).1)) = lanes s ∧
  target_width (next (lane_config_json (save_results s).1)) = target_width s ∧
  target_height (next (lane_config_json (save_results s).1)) = target_height s.
Proof.
  apply (proj2 (saved_configuration_round_trip (session None Scenario.video).1)).
  by vm_compute.
Defined.

(** ** Regions that cannot match *)

(** X17. A lane whose corners are not in the expected order (its first
    corner to the right of, or above, its second) is never the answer of
    [is_vehicle_in_lane], wherever the point is; the lanes after it are
    still searched. *)
Theorem unordered_region_never_matches (ls : list lane) (i : nat) (l : lane)
  (cx cy : Z) :
  ls !! i = Some l →
  l.2.1 < l.1.1 ∨ l.1.2 < l.2.2 →
  is_vehicle_in_lane (lanes_val ls) cx cy ≠ OK (Some (S i)) ∧
  is_vehicle_in_lane (lanes_val ls) cx cy =
    is_vehicle_in_lane (lanes_val (<[i := ((1, 0), (0, 1))]> ls)) cx cy.
Proof.
  intros Hi Hbad.
  assert (∀ l', (l'.2.1 < l'.1.1 ∨ l'.1.2 < l'.2.2) → ¬ inside l' cx cy)
    as Hout.
  { intros l' H' (? & ? & ? & ?). lia. }
  split.
  - rewrite is_vehicle_in_lane_lanes.
    destruct (list_find (λ l, inside l cx cy) ls) as [[k l']|] eqn:Hf; [|done].
    cbn. intros [= ->]. apply list_find_Some in Hf as (Hk & Hin & _).
    rewrite Hi in Hk. injection Hk as <-. by apply (Hout l).
  - rewrite !is_vehicle_in_lane_lanes. do 2 f_equal.
    revert i Hi. induction ls as [|l0 ls IH]; intros i Hi; [done|].
    destruct i as [|i].
    + injection Hi as ->.
      change (<[0%nat := ((1, 0), (0, 1))]> (l :: ls))
        with (((1, 0), (0, 1)) :: ls).
      cbn [list_find].
      rewrite (decide_False (P := inside l cx cy)) by (by apply Hout).
      rewrite (decide_False (P := inside ((1, 0), (0, 1)) cx cy)); [done|].
      apply Hout. simpl. lia.
    + change (<[S i := ((1, 0), (0, 1))]> (l0 :: ls))
        with (l0 :: <[i := ((1, 0), (0, 1))]> ls).
      cbn [list_find]. destruct (decide (inside l0 cx cy)); [done|].
      by rewrite (IH i Hi).
Qed.

Lemma unordered_region_never_matches_witness :
  let ls : list lane := [ ((500, 720), (100, 400)); ((0, 720), (900, 400)) ] in
  is_vehicle_in_lane (lanes_val ls) 300 500 ≠ OK (Some 1%nat) ∧
  is_vehicle_in_lane (lanes_val ls) 300 500 =
    is_vehicle_in_lane (lanes_val (<[0%nat := ((1, 0), (0, 1))]> ls)) 300 500.
Proof.
  apply (unordered_region_never_matches
           [ ((500, 720), (100, 400)); ((0, 720), (900, 400)) ] 0
           ((500, 720), (100, 400)) 300 500);
    [reflexivity | left; simpl; lia].
Defined.

(** ** The centroid *)

Lemma int_mono (p q : Q) : (p <= q)%Q → Py.int p ≤ Py.int q.
Proof.
  destruct p as [a b], q as [c d]. unfold Qle, Py.int. simpl. intros H.
  rewrite <- (Z.quot_mul_cancel_r a (Z.pos b) (Z.pos d)) by lia.
  rewrite <- (Z.quot_mul_cancel_r c (Z.pos d) (Z.pos b)) by lia.
  rewrite (Z.mul_comm (Z.pos d) (Z.pos b)).
  apply Z.quot_le_mono; lia.
Qed.

(** X18. For a box whose left edge is not right of its right edge and
    whose top is not below its bottom, the centroid used for the lane
    test lies within the box truncated to integers. *)
Theorem centroid_in_box (t : track) :
  let '(l, u, r, b) := to_ltrb t in
  (l <= r)%Q → (u <= b)%Q →
  Py.int l ≤ (centroid t).1 ≤ Py.int r ∧
  Py.int u ≤ (centroid t).2 ≤ Py.int b.
Proof.
  unfold centroid. destruct (to_ltrb t) as [[[l u] r] b].
  intros Hx%int_mono Hy%int_mono. cbn [fst snd].
  pose proof (Z.div_mod (Py.int l + Py.int r) 2 ltac:(lia)).
  pose proof (Z.mod_pos_bound (Py.int l + Py.int r) 2 ltac:(lia)).
  pose proof (Z.div_mod (Py.int u + Py.int b) 2 ltac:(lia)).
  pose proof (Z.mod_pos_bound (Py.int u + Py.int b) 2 ltac:(lia)).
  lia.
Qed.

Lemma centroid_in_box_witness :
  let t := Track true "A" (box_around 300 500) in
  250 ≤ (centroid t).1 ≤ 350 ∧ 450 ≤ (centroid t).2 ≤ 550.
Proof.
  apply (centroid_in_box (Track true "A" (box_around 300 500)));
    by vm_compute.
Defined.
(** ** The time of day of an event *)

Lemma two_digits_inj n m :
  0 ≤ n < 100 → 0 ≤ m < 100 → two_digits n = two_digits m → n = m.
Proof.
  intros Hn Hm Heq.
  assert (Forall (λ i, Forall (λ j,
            two_digits (Z.of_nat i) = two_digits (Z.of_nat j) → i = j)
            (seq 0 100)) (seq 0 100)) as Hall.
  { apply (bool_decide_unpack _). by vm_compute. }
  rewrite Forall_forall in Hall.
  specialize (Hall (Z.to_nat n)). rewrite Forall_forall in Hall.
  specialize (Hall ltac:(apply elem_of_seq; lia) (Z.to_nat m)
                   ltac:(apply elem_of_seq; lia)).
  rewrite !Z2Nat.id in Hall by lia. specialize (Hall Heq). lia.
Qed.

Lemma two_digits_shape n :
  0 ≤ n < 100 → ∃ a b, two_digits n = String a (String b EmptyString).
Proof.
  intros Hn%two_digits_length.
  destruct (two_digits n) as [|a [|b [|c r]]]; try done. eauto.
Qed.

Lemma time_of_day_inj h1 m1 s1 h2 m2 s2 :
  0 ≤ h1 < 100 → 0 ≤ m1 < 100 → 0 ≤ s1 < 100 →
  0 ≤ h2 < 100 → 0 ≤ m2 < 100 → 0 ≤ s2 < 100 →
  two_digits h1 +:+ ":" +:+ two_digits m1 +:+ ":" +:+ two_digits s1 =
  two_digits h2 +:+ ":" +:+ two_digits m2 +:+ ":" +:+ two_digits s2 →
  h1 = h2 ∧ m1 = m2 ∧ s1 = s2.
Proof.
  intros Hh1 Hm1 Hs1 Hh2 Hm2 Hs2.
  destruct (two_digits_shape h1 Hh1) as (a1 & b1 & Eh1).
  destruct (two_digits_shape m1 Hm1) as (c1 & d1 & Em1).
  destruct (two_digits_shape s1 Hs1) as (e1 & f1 & Es1).
  destruct (two_digits_shape h2 Hh2) as (a2 & b2 & Eh2).
  destruct (two_digits_shape m2 Hm2) as (c2 & d2 & Em2).
  destruct (two_digits_shape s2 Hs2) as (e2 & f2 & Es2).
  intros Heq.
  assert (two_digits h1 = two_digits h2 ∧ two_digits m1 = two_digits m2 ∧
          two_digits s1 = two_digits s2) as (H1 & H2 & H3).
  { rewrite Eh1, Em1, Es1, Eh2, Em2, Es2 in *. cbn in Heq.
    by injection Heq as -> -> -> -> -> ->. }
  repeat split; by apply two_digits_inj.
Qed.

Lemma strftime_ok tm x :
  strftime tm = OK x →
  x = two_digits (tm_hour tm) +:+ ":" +:+ two_digits (tm_min tm) +:+ ":" +:+
      two_digits (tm_sec tm).
Proof. unfold strftime. destruct (c_int _); [|done]. by intros [= <-]. Qed.

(** The model of the time library at the edges of its range, as the
    platform answers there: the last second of the year 2147483647 is
    formatted, the next one is broken down but not formatted, the year
    2147485548 and times beyond [2 ^ 63] seconds are refused, as are
    times before the year -2147481748; a negative time is rounded down. *)
Example time_library_limits :
  let stamp t := let? tm := gmtime t in strftime tm in
  stamp (float_lit 67767976233532792 0) = OK "23:59:52" ∧
  gmtime (float_lit 67767976233532800 0) =
    OK (broken_down 67767976233532800) ∧
  strftime (broken_down 67767976233532800) = Err OverflowError ∧
  gmtime (float_lit 67768036191676800 0) = Err OSError ∧
  gmtime (float_lit (2 ^ 63) 0) = Err OSError ∧
  gmtime (float_lit (2 ^ 63 + 2048) 0) = Err OverflowError ∧
  gmtime (float_lit (2 ^ 70) 0) = Err OverflowError ∧
  stamp (float_lit (-67768040609740800) 0) = OK "00:00:00" ∧
  gmtime (float_lit (-67768040609740808) 0) = Err OSError ∧
  stamp (float_lit (-1) (-1)) = OK "23:59:59" ∧
  gmtime SpecFloat.S754_nan = Err ValueError.
Proof. vm_compute. repeat split. Qed.

(** X19. The timestamp of an event is a valid time of day: for a time
    that [time.gmtime] accepts, hours below 24, minutes and seconds
    below 60, together the whole seconds of [frame / fps] within the
    day; and two timestamps are the same text exactly when the two times
    fall in the same second of the day. *)
Theorem timestamp_is_second_of_day (t1 t2 : float) (tm1 tm2 : struct_time)
  (x1 x2 : string) :
  gmtime t1 = OK tm1 → gmtime t2 = OK tm2 →
  strftime tm1 = OK x1 → strftime tm2 = OK x2 →
  (0 ≤ tm_hour tm1 < 24 ∧ 0 ≤ tm_min tm1 < 60 ∧ 0 ≤ tm_sec tm1 < 60 ∧
   tm_hour tm1 * 3600 + tm_min tm1 * 60 + tm_sec tm1 =
     float_floor t1 mod 86400) ∧
  (x1 = x2 ↔ float_floor t1 mod 86400 = float_floor t2 mod 86400).
Proof.
  intros ->%gmtime_ok ->%gmtime_ok ->%strftime_ok ->%strftime_ok.
  pose proof (broken_down_fields (float_floor t1)) as F1.
  pose proof (broken_down_fields (float_floor t2)) as F2.
  cbn zeta in F1, F2. split; [exact F1|]. split.
  - intros Heq. apply time_of_day_inj in Heq as (E1 & E2 & E3); lia.
  - intros Heq. unfold broken_down. cbn [tm_hour tm_min tm_sec].
    by rewrite Heq.
Qed.

Lemma timestamp_is_second_of_day_witness :
  "00:00:01" = "00:00:01" ↔
  float_floor (float_lit 1 0) mod 86400 = float_floor (float_lit 3 (-1)) mod 86400.
Proof.
  apply (timestamp_is_second_of_day (float_lit 1 0) (float_lit 3 (-1))
           (broken_down 1) (broken_down 1) "00:00:01" "00:00:01");
    reflexivity.
Defined.

(** ** The whole analysis *)

(** [download_video] only prints. *)
Lemma download_video_state w s :
  ∃ lines, (download_video w s).1 = set_stdout (stdout s ++ lines) s.
Proof.
  unfold download_video, try_except, bind, print, modify, lift, raise.
  destruct (video_exists w); [by eexists [_]|].
  destruct (ydl_download w) as [e|[]]; fields.
  - exists [Text ("Downloading video from " +:+ video_url w +:+ "...");
            Text ("Error downloading video: " +:+ exn_text w e)].
    by rewrite <- app_assoc.
  - exists [Text ("Downloading video from " +:+ video_url w +:+ "...");
            Text "Video download completed successfully!"].
    by rewrite <- app_assoc.
Qed.

(** With its three counters, [save_results] returns and has written both
    files. *)
Lemma save_results_run s :
  (∀ n, (1 ≤ n ≤ 3)%nat → is_Some (lane_counts s !! n)) →
  ∃ o, save_results s =
         (set_stdout o
            (set_lane_config_json (Some (Json (config_of s)))
               (set_output_csv (Some (to_csv (output_data s))) s)), OK tt).
Proof.
  intros Hk.
  destruct (Hk 1%nat ltac:(lia)) as [c1 H1].
  destruct (Hk 2%nat ltac:(lia)) as [c2 H2].
  destruct (Hk 3%nat ltac:(lia)) as [c3 H3].
  eexists. unfold_save.
  rewrite H1; fields. rewrite H2; fields. rewrite H3; fields. reflexivity.
Qed.

(** X21. The analysis of a new analyzer fails exactly when the download
    or the video loop fails: [save_results] cannot fail after them.  On
    a failure the exception reaches the caller after the line that
    reports it, and neither [output.csv] nor [lane_config.json] has been
    written, whatever was counted before; otherwise both files are
    written, [output.csv] holding the log, and the last line printed is
    the line of success. *)
Theorem analysis_fails_only_before_saving (w : surroundings) (cfg : option file) :
  let s := (new_analyzer cfg).1 in
  let r := run_analysis w s in
  match ((download_video w;; process_video (opened_video w)) s).2 with
  | Err e =>
      r.2 = Err e ∧
      output_csv r.1 = output_csv s ∧
      lane_config_json r.1 = lane_config_json s ∧
      last (stdout r.1) = Some (Text ("Error during analysis: " +:+ exn_text w e))
  | OK _ =>
      r.2 = OK tt ∧
      output_csv r.1 = Some (to_csv (output_data r.1)) ∧
      lane_config_json r.1 = Some (Json (config_of r.1)) ∧
      last (stdout r.1) = Some (Text "Analysis completed successfully!")
  end.
Proof.
  intros s r. subst r.
  destruct (new_analyzer_counting cfg) as (Hl & _ & _). fold s in Hl.
  destruct (download_video_state w s) as [lines Hd].
  unfold run_analysis, try_except, bind, print, modify, raise.
  destruct (download_video w s) as [s1 [e|[]]]; cbn [fst snd] in *.
  { subst s1. fields. repeat split. apply last_snoc. }
  pose proof (process_video_preorder same_configuration
    ltac:(intros n t s0; by destruct (process_track_outcome n t s0))
    ltac:(done) ltac:(done) (opened_video w) s1) as (_ & _ & _ & Hj & Hc).
  pose proof (process_video_counters (opened_video w) s1) as [Hdom _].
  destruct (process_video (opened_video w) s1) as [s2 [e|[]]]; cbn [fst snd] in *.
  { subst s1. fields. repeat split; [done..|]. apply last_snoc. }
  destruct (save_results_run s2) as [o Hs].
  { intros n Hn. rewrite <- elem_of_dom, Hdom. subst s1. fields.
    rewrite Hl. unfold initial_counts.
    rewrite !dom_insert_L, dom_singleton_L. set_unfold. lia. }
  rewrite Hs. fields. repeat split. apply last_snoc.
Qed.
